(** * File Renamer: a shallow embedding of [file_renamer.py]

    The development follows the layout of the Python module:
    - [PyStr]: the [str] methods the program calls ([lower], [startswith],
      [replace], [str(int)], [int(str)], [re.findall(r'\d+', _)]);
    - [PurePath]: the part of [pathlib] the program uses, in its POSIX
      flavour ([Path(s)], [/], [name], [suffix], [stem], [parent], [==]);
    - the module-level functions [normalize_extension],
      [extract_numeric_order] and [handle_name_conflict];
    - a [FileSystem] interface for the calls that reach the operating
      system ([exists], [is_file], [iterdir], [rename]), with an in-memory
      instance [memfs];
    - [FileRenamer]: [discover_files], [generate_rename_plan] and
      [execute_renames].

    Text is modelled at two levels. [Unicode] takes a Python [str] as the
    list of its code points, with [str.lower()] and the table of decimal
    digits as parameters: the two functions that read letters and digits,
    [normalize_extension] and [extract_numeric_order], are embedded there
    for every string. [PyStr] and the rest of the development work on
    [string], the text taken byte by byte, with the ASCII letters and
    digits: splitting at ['/'], finding the last ['.'], replacing [{n}] and
    concatenation do the same on bytes as on code points, and on ASCII text
    the byte-level [normalize_extension] and [extract_numeric_order] are
    the [Unicode] ones. *)

From Stdlib Require Import String Ascii List ZArith Lia Bool Arith PeanoNat.
From Stdlib Require Import Decimal DecimalNat DecimalString.
From Stdlib Require Import Permutation Sorted.
Import ListNotations.

Open Scope list_scope.
Open Scope string_scope.

(* ===================================================================== *)
(** * Python strings *)
(* ===================================================================== *)

Module PyStr.

(** The decimal digits among the ASCII characters, ['0'..'9']. *)
Definition is_digit (c : ascii) : bool :=
  (48 <=? nat_of_ascii c)%nat && (nat_of_ascii c <=? 57)%nat.

(** The uppercase letters among the ASCII characters, ['A'..'Z']. *)
Definition is_upper (c : ascii) : bool :=
  (65 <=? nat_of_ascii c)%nat && (nat_of_ascii c <=? 90)%nat.

Definition lower_char (c : ascii) : ascii :=
  if is_upper c then ascii_of_nat (nat_of_ascii c + 32) else c.

(** [s.lower()] on ASCII text: ['A'..'Z'] go to ['a'..'z'], every other
    byte is kept. *)
Fixpoint lower (s : string) : string :=
  match s with
  | EmptyString => EmptyString
  | String c rest => String (lower_char c) (lower rest)
  end.

(** [s.startswith(p)] *)
Definition startswith (s p : string) : bool := prefix p s.

(** [s.replace(old, new)] for a non-empty [old]: every occurrence found
    scanning from the left is replaced, and the scan resumes after it.
    [skip] counts the characters of a matched occurrence still to drop. *)
Fixpoint replace_from (old new s : string) (skip : nat) : string :=
  match s with
  | EmptyString => EmptyString
  | String c rest =>
      match skip with
      | S k => replace_from old new rest k
      | O =>
          if prefix old s
          then new ++ replace_from old new rest (String.length old - 1)
          else String c (replace_from old new rest 0)
      end
  end.

Definition replace (s old new : string) : string := replace_from old new s 0.

(** [str(n)] for a non-negative integer. *)
Definition str (n : nat) : string := NilEmpty.string_of_uint (Nat.to_uint n).

Definition digit_value (c : ascii) : Z := Z.of_nat (nat_of_ascii c - 48).

(** [int(s)] on a string of ASCII decimal digits, most significant
    first, where it returns. *)
Fixpoint int_from (s : string) (acc : Z) : Z :=
  match s with
  | EmptyString => acc
  | String c rest => int_from rest (10 * acc + digit_value c)
  end.

Definition int (s : string) : Z := int_from s 0.

(** [re.findall(r'\d+', s)] on ASCII text: the maximal runs of digits of
    [s], from left to right. *)
Fixpoint findall_digits (s : string) : list string :=
  match s with
  | EmptyString => []
  | String c rest =>
      if is_digit c then
        match rest with
        | EmptyString => [String c EmptyString]
        | String c' _ =>
            if is_digit c' then
              match findall_digits rest with
              | run :: runs => String c run :: runs
              | [] => [String c EmptyString]
              end
            else String c EmptyString :: findall_digits rest
        end
      else findall_digits rest
  end.

(** [s.rfind('.')], as an option instead of Python's [-1]. *)
Fixpoint rfind_dot (s : string) : option nat :=
  match s with
  | EmptyString => None
  | String c rest =>
      match rfind_dot rest with
      | Some i => Some (S i)
      | None => if Ascii.eqb c "." then Some 0%nat else None
      end
  end.

(** [s.split('/')] *)
Fixpoint split_slash (s : string) : list string :=
  match s with
  | EmptyString => [EmptyString]
  | String c rest =>
      if Ascii.eqb c "/" then EmptyString :: split_slash rest
      else
        match split_slash rest with
        | h :: t => String c h :: t
        | [] => [String c EmptyString]
        end
  end.

Fixpoint has_slash (s : string) : bool :=
  match s with
  | EmptyString => false
  | String c rest => Ascii.eqb c "/" || has_slash rest
  end.

End PyStr.

(* ===================================================================== *)
(** * Python strings in full *)
(* ===================================================================== *)

Module Unicode.

(** A [str] is the list of its code points. *)
Definition str : Type := list N.

(** The code points of a text given byte by byte, each byte one character
    (the text is ASCII when every byte is below 128). *)
Definition codes (s : string) : str := map N_of_ascii (list_ascii_of_string s).

Definition is_ascii (s : str) : bool := forallb (fun c => (c <? 128)%N) s.

(** ['.'] *)
Definition dot : N := 46%N.

(** [s.startswith('.')] *)
Definition startswith_dot (s : str) : bool :=
  match s with
  | c :: _ => (c =? dot)%N
  | [] => false
  end.

(** [sys.int_info.default_max_str_digits]: [int] refuses a longer string
    of digits with [ValueError]. *)
Definition int_max_str_digits : nat := 4300.

Section Database.

(** What the Unicode database decides: [lower s] is [s.lower()], and
    [decimal c] is the value of [c] as a decimal digit, [None] when [c] is
    not one (the characters [\d] matches and [int] reads). *)
Variable lower : str -> str.
Variable decimal : N -> option Z.

Definition normalize_extension (ext : str) : str :=
  let ext := if negb (startswith_dot ext) then dot :: ext else ext in
  lower ext.

Definition is_decimal (c : N) : bool :=
  match decimal c with
  | Some _ => true
  | None => false
  end.

(** [re.findall(r'\d+', s)]: the maximal runs of decimal digits of [s],
    from left to right. *)
Fixpoint findall_decimal (s : str) : list str :=
  match s with
  | [] => []
  | c :: rest =>
      if is_decimal c then
        match rest with
        | [] => [[c]]
        | c' :: _ =>
            if is_decimal c' then
              match findall_decimal rest with
              | run :: runs => (c :: run) :: runs
              | [] => [[c]]
              end
            else [c] :: findall_decimal rest
        end
      else findall_decimal rest
  end.

Definition digit_value (c : N) : Z :=
  match decimal c with
  | Some v => v
  | None => 0%Z
  end.

Fixpoint int_from (s : str) (acc : Z) : Z :=
  match s with
  | [] => acc
  | c :: rest => int_from rest (10 * acc + digit_value c)
  end.

(** [int(s)] for a run of decimal digits, as [re.findall] yields them;
    [None] stands for [ValueError]. *)
Definition int (s : str) : option Z :=
  if (List.length s <=? int_max_str_digits)%nat then Some (int_from s 0%Z)
  else None.

(** [None] stands for the [ValueError] that [int] raises. *)
Definition extract_numeric_order (filename : str) : option Z :=
  let numbers := findall_decimal filename in
  match numbers with
  | first :: _ => int first
  | [] => Some 0%Z
  end.

(** The number a run of decimal digits denotes, as a positional sum. *)
Fixpoint decimal_value (run : str) : Z :=
  match run with
  | [] => 0%Z
  | c :: rest =>
      (digit_value c * 10 ^ Z.of_nat (List.length rest) + decimal_value rest)%Z
  end.

Definition not_decimal (c : N) : bool := negb (is_decimal c).

(** [s] does not start with a decimal digit. *)
Definition no_leading_decimal (s : str) : bool :=
  match s with
  | c :: _ => not_decimal c
  | [] => true
  end.

End Database.

(** [s] starts with a dot that no second dot follows. *)
Definition starts_with_exactly_one_dot (s : str) : bool :=
  match s with
  | c :: rest => (c =? dot)%N && negb (startswith_dot rest)
  | [] => false
  end.

(** [s.startswith('..')] *)
Definition starts_with_two_dots (s : str) : bool :=
  match s with
  | c :: rest => (c =? dot)%N && startswith_dot rest
  | [] => false
  end.

(** An ASCII character that is not an uppercase letter. *)
Definition ascii_not_upper (c : N) : bool :=
  (c <? 128)%N && negb ((65 <=? c)%N && (c <=? 90)%N).

(** ** The database on ASCII *)

Definition ascii_lower (c : N) : N :=
  if (65 <=? c)%N && (c <=? 90)%N then (c + 32)%N else c.

(** Lowercasing that knows the ASCII letters only. *)
Definition ascii_lowercase (s : str) : str := map ascii_lower s.

(** The decimal digits of ASCII with their values. *)
Definition ascii_decimal (c : N) : option Z :=
  if (48 <=? c)%N && (c <=? 57)%N then Some (Z.of_N c - 48)%Z else None.

(** ** What is used of [str.lower()] and of the decimal digits *)

(** On ASCII text [lower] lowers the ASCII letters and keeps the rest. *)
Definition lower_on_ascii (lower : str -> str) : Prop :=
  forall s, is_ascii s = true -> lower s = ascii_lowercase s.

(** [lower] keeps the empty string empty and a leading dot in place, and
    never makes a dot out of another first character: the dot is not a
    letter, and no letter has a lowercase form that starts with a dot. *)
Definition lower_keeps_leading_dot (lower : str -> str) : Prop :=
  lower [] = [] /\
  (forall s, lower (dot :: s) = dot :: lower s) /\
  (forall c s, c <> dot -> startswith_dot (lower (c :: s)) = false).

(** Among the ASCII characters the decimal digits are ['0'..'9']. *)
Definition decimal_on_ascii (decimal : N -> option Z) : Prop :=
  forall c, (c < 128)%N -> decimal c = ascii_decimal c.

End Unicode.

(* ===================================================================== *)
(** * pathlib, POSIX flavour *)
(* ===================================================================== *)

Module PurePath.

(** A path is its anchor (absolute or not) and its components.
    [Path('.')] has no component. *)
Record Path : Type := mkPath { is_absolute : bool; parts : list string }.

(** A string is kept as a component unless it is empty or ["."]. *)
Definition keeps_component (s : string) : bool :=
  negb (String.eqb s "") && negb (String.eqb s ".").

(** [Path(s)]: split at the separators, drop empty and ["."] components.
    A leading separator makes the path absolute (the POSIX root ["//"] is
    not told apart from ["/"]). *)
Definition parse (s : string) : Path :=
  {| is_absolute := PyStr.startswith s "/";
     parts := filter keeps_component (PyStr.split_slash s) |}.

(** [p / s] *)
Definition join (p : Path) (s : string) : Path :=
  let q := parse s in
  if is_absolute q then q
  else {| is_absolute := is_absolute p; parts := (parts p ++ parts q)%list |}.

(** [p.name] *)
Definition name (p : Path) : string := last (parts p) EmptyString.

(** [p.parent] *)
Definition parent (p : Path) : Path :=
  {| is_absolute := is_absolute p; parts := removelast (parts p) |}.

(** Where [p.suffix] starts in [p.name]: the last dot, unless it is the
    first or the last character of the name ([0 < i < len(name) - 1], as
    in CPython up to 3.13). *)
Definition suffix_start (nm : string) : option nat :=
  match PyStr.rfind_dot nm with
  | Some i =>
      if (0 <? i)%nat && (i <? String.length nm - 1)%nat then Some i else None
  | None => None
  end.

(** [p.suffix] *)
Definition suffix (p : Path) : string :=
  let nm := name p in
  match suffix_start nm with
  | Some i => substring i (String.length nm - i) nm
  | None => EmptyString
  end.

(** [p.stem] *)
Definition stem (p : Path) : string :=
  let nm := name p in
  match suffix_start nm with
  | Some i => substring 0 i nm
  | None => nm
  end.

(** [p == q] *)
Fixpoint parts_eqb (l1 l2 : list string) : bool :=
  match l1, l2 with
  | [], [] => true
  | c1 :: r1, c2 :: r2 => String.eqb c1 c2 && parts_eqb r1 r2
  | _, _ => false
  end.

Definition path_eqb (p q : Path) : bool :=
  Bool.eqb (is_absolute p) (is_absolute q) && parts_eqb (parts p) (parts q).

(** A string that [p / s] appends as one component called [s]. *)
Definition is_component (s : string) : bool :=
  keeps_component s && negb (PyStr.has_slash s).

(** Paths as [Path(s)] and [/] build them: every component is one. *)
Definition wf (p : Path) : Prop := Forall (fun c => is_component c = true) (parts p).

End PurePath.

Import PurePath.

Declare Scope path_scope.
Delimit Scope path_scope with path.
Notation "p // s" := (join p s) (at level 40, left associativity) : path_scope.
Open Scope path_scope.

(* ===================================================================== *)
(** * Module-level functions of file_renamer.py *)
(* ===================================================================== *)

(** The strings ['pending'], ['success'], ['failed'] and ['skipped'] that
    the program stores in [RenameOperation.status]. *)
Inductive Status : Type := pending | success | failed | skipped.

Record RenameOperation : Type := mkOp {
  source : Path;
  target : Path;
  status : Status;
  error : option string
}.

(** The fields [failed] and [skipped] carry an underscore here, their
    names being taken by the statuses. *)
Record RenameResult : Type := mkResult {
  total_files : nat;
  successful : nat;
  failed_ : nat;
  skipped_ : nat;
  errors : list string
}.

Definition normalize_extension (ext : string) : string :=
  let ext := if negb (PyStr.startswith ext ".") then "." ++ ext else ext in
  PyStr.lower ext.

Definition extract_numeric_order (filename : string) : Z :=
  let numbers := PyStr.findall_digits filename in
  match numbers with
  | first :: _ => PyStr.int first
  | [] => 0%Z
  end.

(** The existence test is a parameter: [exists_ p] stands for [p.exists()]
    at the time of the call. *)
Section HandleNameConflict.

Variable exists_ : Path -> bool.

(** The name tried at [counter]: [f"{stem}_{counter}{suffix}"]. *)
Definition suffixed_name (stem suffix : string) (counter : nat) : string :=
  stem ++ "_" ++ PyStr.str counter ++ suffix.

(** The [while True] loop, with [fuel] bounding the number of rounds;
    [None] stands for a loop that has not returned within [fuel] rounds. *)
Fixpoint conflict_loop (parent : Path) (stem suffix : string)
         (counter fuel : nat) : option Path :=
  match fuel with
  | O => None
  | S fuel' =>
      let new_name := suffixed_name stem suffix counter in
      let new_path := parent // new_name in
      if negb (exists_ new_path) then Some new_path
      else conflict_loop parent stem suffix (S counter) fuel'
  end.

Definition handle_name_conflict (fuel : nat) (target_path : Path) : option Path :=
  if negb (exists_ target_path) then Some target_path
  else
    let stem := stem target_path in
    let suffix := suffix target_path in
    let parent := parent target_path in
    conflict_loop parent stem suffix 1 fuel.

End HandleNameConflict.

(* ===================================================================== *)
(** * The operating system, as the program sees it *)
(* ===================================================================== *)

(** The exception classes [execute_renames] tells apart, each with the
    text of [str(e)]. [OSError] stands for every [OSError] that is not a
    [PermissionError]. *)
Inductive exn : Type :=
| PermissionError (msg : string)
| OSError (msg : string)
| OtherException (msg : string).

(** The calls the program makes on a file system in state [S]:
    [p.exists()], [p.is_file()], [list(p.iterdir())] and [p.rename(q)],
    which raises or leads to a new state. *)
Class FileSystem (S : Type) : Type := {
  fs_exists : S -> Path -> bool;
  fs_is_file : S -> Path -> bool;
  fs_iterdir : S -> Path -> list Path;
  fs_rename : S -> Path -> Path -> exn + S
}.

(** ** An in-memory file system *)

Module MemFS.

Inductive Kind : Type := RegularFile | Directory.

(** The existing paths with their kind, in directory-listing order. *)
Definition memfs : Type := list (Path * Kind).

Definition lookup_kind (fs : memfs) (p : Path) : option Kind :=
  option_map snd (find (fun e => path_eqb (fst e) p) fs).

Definition mem_exists (fs : memfs) (p : Path) : bool :=
  existsb (fun e => path_eqb (fst e) p) fs.

Definition mem_is_file (fs : memfs) (p : Path) : bool :=
  match lookup_kind fs p with
  | Some RegularFile => true
  | _ => false
  end.

Definition is_child_of (folder p : Path) : bool :=
  path_eqb (parent p) folder && negb (path_eqb p folder).

Definition mem_iterdir (fs : memfs) (folder : Path) : list Path :=
  map fst (filter (fun e => is_child_of folder (fst e)) fs).

Fixpoint parts_prefix (l1 l2 : list string) : bool :=
  match l1, l2 with
  | [], _ => true
  | c1 :: r1, c2 :: r2 => String.eqb c1 c2 && parts_prefix r1 r2
  | _ :: _, [] => false
  end.

(** [p] is [src] or lies below it. *)
Definition under (src p : Path) : bool :=
  Bool.eqb (is_absolute src) (is_absolute p) && parts_prefix (parts src) (parts p).

Definition rebase (src dst p : Path) : Path :=
  if under src p
  then {| is_absolute := is_absolute dst;
          parts := (parts dst ++ skipn (List.length (parts src)) (parts p))%list |}
  else p.

Definition move (fs : memfs) (src dst : Path) : memfs :=
  map (fun e => (rebase src dst (fst e), snd e))
      (filter (fun e => negb (path_eqb (fst e) dst)) fs).

(** [os.rename(src, dst)] on POSIX: an existing regular file or empty
    directory at [dst] is replaced silently. *)
Definition mem_rename (fs : memfs) (src dst : Path) : exn + memfs :=
  match lookup_kind fs src with
  | None => inl (OSError "[Errno 2] No such file or directory")
  | Some k =>
      if path_eqb src dst then inr fs
      else if under src dst then inl (OSError "[Errno 22] Invalid argument")
      else
        match lookup_kind fs (parent dst) with
        | None => inl (OSError "[Errno 2] No such file or directory")
        | Some RegularFile => inl (OSError "[Errno 20] Not a directory")
        | Some Directory =>
            match lookup_kind fs dst, k with
            | Some Directory, RegularFile => inl (OSError "[Errno 21] Is a directory")
            | Some RegularFile, Directory => inl (OSError "[Errno 20] Not a directory")
            | Some Directory, Directory =>
                if existsb (fun e => is_child_of dst (fst e)) fs
                then inl (OSError "[Errno 39] Directory not empty")
                else inr (move fs src dst)
            | _, _ => inr (move fs src dst)
            end
        end
  end.

End MemFS.

#[export] Instance memfs_FileSystem : FileSystem MemFS.memfs := {
  fs_exists := MemFS.mem_exists;
  fs_is_file := MemFS.mem_is_file;
  fs_iterdir := MemFS.mem_iterdir;
  fs_rename := MemFS.mem_rename
}.

(* ===================================================================== *)
(** * class FileRenamer *)
(* ===================================================================== *)

(** [list.sort(key=...)]: a stable sort, here by insertion. An element is
    put in front of the first element whose key is not smaller. *)
Section SortByKey.

Context {A : Type} (key : A -> Z).

Fixpoint insert_by_key (x : A) (l : list A) : list A :=
  match l with
  | [] => [x]
  | y :: l' =>
      if (key x <=? key y)%Z then x :: y :: l' else y :: insert_by_key x l'
  end.

Fixpoint sort_by_key (l : list A) : list A :=
  match l with
  | [] => []
  | x :: l' => insert_by_key x (sort_by_key l')
  end.

End SortByKey.

Notation "x <- e ;; k" :=
  (match e with Some x => k | None => None end)
  (at level 61, e at next level, right associativity, only parsing).

(** The fields [folder_path] and [pattern] of [self] are arguments; the
    plan kept in [self.rename_operations] is returned by
    [generate_rename_plan] and handed to [execute_renames]. *)
Module FileRenamer.
Section Methods.

Context {S : Type} `{FileSystem S}.

Definition discover_files (fs : S) (folder_path : Path) : list Path :=
  let all_items := fs_iterdir fs folder_path in
  let files := filter (fun item => fs_is_file fs item) all_items in
  sort_by_key (fun f => extract_numeric_order (name f)) files.

(** The name built for the file at [index], before it is made a path. *)
Definition new_name (pattern : string) (index : nat) (file_path : Path) : string :=
  let extension := normalize_extension (suffix file_path) in
  PyStr.replace pattern "{n}" (PyStr.str index) ++ extension.

(** The body of [for index, file_path in enumerate(files, start=index)]. *)
Fixpoint plan_from (fuel : nat) (fs : S) (folder_path : Path) (pattern : string)
         (index : nat) (files : list Path) : option (list RenameOperation) :=
  match files with
  | [] => Some []
  | file_path :: rest =>
      let target_path := folder_path // new_name pattern index file_path in
      target_path <- handle_name_conflict (fs_exists fs) fuel target_path ;;
      let operation :=
        {| source := file_path; target := target_path;
           status := pending; error := None |} in
      operations <- plan_from fuel fs folder_path pattern (Datatypes.S index) rest ;;
      Some (operation :: operations)
  end.

Definition generate_rename_plan (fuel : nat) (fs : S) (folder_path : Path)
           (pattern : string) : option (list RenameOperation) :=
  let files := discover_files fs folder_path in
  plan_from fuel fs folder_path pattern 1 files.

(** The local variables of [execute_renames], with the file system and
    the operations already given their final status. *)
Record ExecState : Type := mkExec {
  st_fs : S;
  successful_count : nat;
  failed_count : nat;
  skipped_count : nat;
  error_messages : list string;
  processed : list RenameOperation
}.

Definition mark_failed (st : ExecState) (operation : RenameOperation)
           (error_msg : string) : ExecState :=
  {| st_fs := st_fs st;
     successful_count := successful_count st;
     failed_count := failed_count st + 1;
     skipped_count := skipped_count st;
     error_messages := (error_messages st ++ [error_msg])%list;
     processed :=
       (processed st ++
        [{| source := source operation; target := target operation;
            status := failed; error := Some error_msg |}])%list |}.

(** One round of [for operation in self.rename_operations]. *)
Definition execute_one (st : ExecState) (operation : RenameOperation) : ExecState :=
  if negb (fs_exists (st_fs st) (source operation)) then
    mark_failed st operation
      ("Source file not found: " ++ name (source operation))
  else if path_eqb (source operation) (target operation) then
    {| st_fs := st_fs st;
       successful_count := successful_count st;
       failed_count := failed_count st;
       skipped_count := skipped_count st + 1;
       error_messages := error_messages st;
       processed :=
         (processed st ++
          [{| source := source operation; target := target operation;
              status := skipped; error := error operation |}])%list |}
  else
    match fs_rename (st_fs st) (source operation) (target operation) with
    | inr fs' =>
        {| st_fs := fs';
           successful_count := successful_count st + 1;
           failed_count := failed_count st;
           skipped_count := skipped_count st;
           error_messages := error_messages st;
           processed :=
             (processed st ++
              [{| source := source operation; target := target operation;
                  status := success; error := error operation |}])%list |}
    | inl (PermissionError e) =>
        mark_failed st operation
          ("Permission denied for " ++ name (source operation) ++ ": " ++ e)
    | inl (OSError e) =>
        mark_failed st operation
          ("Failed to rename " ++ name (source operation) ++ ": " ++ e)
    | inl (OtherException e) =>
        mark_failed st operation
          ("Unexpected error renaming " ++ name (source operation) ++ ": " ++ e)
    end.

Definition initial_state (fs : S) : ExecState :=
  {| st_fs := fs; successful_count := 0; failed_count := 0; skipped_count := 0;
     error_messages := []; processed := [] |}.

Definition run_operations (fs : S) (rename_operations : list RenameOperation)
  : ExecState :=
  fold_left execute_one rename_operations (initial_state fs).

(** Returns the result, the operations with their final status and
    the file system the renames leave behind. *)
Definition execute_renames (fs : S) (rename_operations : list RenameOperation)
  : RenameResult * list RenameOperation * S :=
  match rename_operations with
  | [] =>
      ({| total_files := 0; successful := 0; failed_ := 0; skipped_ := 0;
          errors := [] |}, [], fs)
  | _ =>
      let st := run_operations fs rename_operations in
      let total_files := List.length rename_operations in
      ({| total_files := total_files;
          successful := successful_count st;
          failed_ := failed_count st;
          skipped_ := skipped_count st;
          errors := error_messages st |}, processed st, st_fs st)
  end.

End Methods.
End FileRenamer.

Import FileRenamer.

(* ===================================================================== *)
(** * Vocabulary of the specification *)
(* ===================================================================== *)

(** Every character of [s] passes the test [P]. *)
Fixpoint string_forall (P : ascii -> bool) (s : string) : bool :=
  match s with
  | EmptyString => true
  | String c rest => P c && string_forall P rest
  end.

Definition not_digit (c : ascii) : bool := negb (PyStr.is_digit c).

(** [s] starts with a dot that no second dot follows. *)
Definition starts_with_exactly_one_dot (s : string) : bool :=
  match s with
  | String c rest => Ascii.eqb c "." && negb (PyStr.startswith rest ".")
  | EmptyString => false
  end.

(** [s] does not start with a digit: a run that ends before [s] is maximal. *)
Definition no_leading_digit (s : string) : bool :=
  match s with
  | String c _ => not_digit c
  | EmptyString => true
  end.

(** The path [parent/stem_k.ext] the resolver tries at counter [k]. *)
Definition candidate (target_path : Path) (k : nat) : Path :=
  parent target_path // suffixed_name (stem target_path) (suffix target_path) k.

(** An existence test that holds of the listed paths only. *)
Definition exists_in (existing : list Path) (p : Path) : bool :=
  existsb (path_eqb p) existing.

(** The resolver's contract when the candidate at [k] is free: some
    [k0 <= k] is the smallest free counter, and with at least [k0] rounds
    the resolver returns the desired path if it is free and the candidate
    at [k0] otherwise; the returned path is free. *)
Definition resolves_to_first_free (exists_ : Path -> bool) (target_path : Path)
           (k : nat) : Prop :=
  exists k0,
    1 <= k0 <= k /\
    exists_ (candidate target_path k0) = false /\
    (forall j, 1 <= j < k0 -> exists_ (candidate target_path j) = true) /\
    forall fuel, k0 <= fuel ->
      exists result,
        handle_name_conflict exists_ fuel target_path = Some result /\
        exists_ result = false /\
        result = (if exists_ target_path then candidate target_path k0
                  else target_path).




Definition status_eqb (a b : Status) : bool :=
  match a, b with
  | pending, pending | success, success | failed, failed | skipped, skipped => true
  | _, _ => false
  end.

(** How many operations of [ops] ended in status [s]. *)
Definition count_status (s : Status) (ops : list RenameOperation) : nat :=
  List.length (filter (fun op => status_eqb (status op) s) ops).

(** The error strings of the failed operations of [ops], in list order. *)
Fixpoint failed_errors (ops : list RenameOperation) : list string :=
  match ops with
  | [] => []
  | op :: rest =>
      match status op, error op with
      | failed, Some e => e :: failed_errors rest
      | _, _ => failed_errors rest
      end
  end.

Section ExecutorVocabulary.

Context {S : Type} `{FileSystem S}.

(** The file system the executor sees when it reaches the operation at
    position [i] of [plan]: the one the first [i] operations leave. *)
Definition fs_before (fs : S) (plan : list RenameOperation) (i : nat) : S :=
  st_fs (run_operations fs (firstn i plan)).

(** What the executor does with operation [op], met in file system
    [before]: [op'] is the operation as it is left and [after] the
    file system the next operation meets. The three tests are read in
    the order of the loop body. *)
Definition outcome (before after : S) (op op' : RenameOperation) : Prop :=
  source op' = source op /\
  target op' = target op /\
  status op' <> pending /\
  (fs_exists before (source op) = false ->
   status op' = failed /\
   error op' = Some ("Source file not found: " ++ name (source op)) /\
   after = before) /\
  (fs_exists before (source op) = true ->
   path_eqb (source op) (target op) = true ->
   status op' = skipped /\ after = before) /\
  (fs_exists before (source op) = true ->
   path_eqb (source op) (target op) = false ->
   match fs_rename before (source op) (target op) with
   | inr fs' => status op' = success /\ after = fs'
   | inl e =>
       status op' = failed /\ after = before /\
       error op' =
       Some (match e with
             | PermissionError m =>
                 "Permission denied for " ++ name (source op) ++ ": " ++ m
             | OSError m =>
                 "Failed to rename " ++ name (source op) ++ ": " ++ m
             | OtherException m =>
                 "Unexpected error renaming " ++ name (source op) ++ ": " ++ m
             end)
   end).

(** The operation at position [i] of the plan has been processed, in
    its turn, whatever happened to the operations before it. *)
Definition processed_in_turn (fs : S) (plan : list RenameOperation)
           (i : nat) (op : RenameOperation) : Prop :=
  let '(_, ops, fs_end) := execute_renames fs plan in
  List.length ops = List.length plan /\
  fs_end = fs_before fs plan (List.length plan) /\
  exists op',
    nth_error ops i = Some op' /\
    outcome (fs_before fs plan i) (fs_before fs plan (Datatypes.S i)) op op'.

End ExecutorVocabulary.

Section TallyVocabulary.

Context {S : Type} `{FileSystem S}.

(** The counters of the executor agree with the operations processed so
    far. *)
Definition tally_ok (st : @ExecState S) : Prop :=
  successful_count st = count_status success (processed st) /\
  failed_count st = count_status failed (processed st) /\
  skipped_count st = count_status skipped (processed st) /\
  count_status pending (processed st) = 0 /\
  error_messages st = failed_errors (processed st) /\
  List.length (error_messages st) = failed_count st.

End TallyVocabulary.

(* ===================================================================== *)
(** * Example directories *)
(* ===================================================================== *)

Module Examples.

Import MemFS.

Definition photos : Path := parse "/photos".

(** A directory that holds exactly [1.PNG] and [2.PNG]. *)
Definition two_pngs : memfs :=
  [(parse "/", Directory); (photos, Directory);
   (photos // "1.PNG", RegularFile); (photos // "2.PNG", RegularFile)].

(** The same directory after a first run with pattern [photo{n}]. *)
Definition renamed_pngs : memfs :=
  [(parse "/", Directory); (photos, Directory);
   (photos // "photo1.png", RegularFile); (photos // "photo2.png", RegularFile)].

(** A plan whose first source is missing, whose second operation renames
    a file to itself and whose third is an ordinary rename. *)
Definition mixed_plan : list RenameOperation :=
  [ {| source := photos // "gone.png"; target := photos // "photo1.png";
       status := pending; error := None |};
    {| source := photos // "1.PNG"; target := photos // "1.PNG";
       status := pending; error := None |};
    {| source := photos // "2.PNG"; target := photos // "photo3.png";
       status := pending; error := None |} ].

End Examples.

(** [p] is the entry called [nm] of the directory [folder_path]. *)
Definition placed_in (folder_path : Path) (nm : string) (p : Path) : Prop :=
  parent p = folder_path /\ name p = nm.

(** The name the planner builds for the file at 1-based position [i]. *)
Definition numbered_name (pattern : string) (i : nat) (file_path : Path) : string :=
  PyStr.replace pattern "{n}" (PyStr.str i)
  ++ normalize_extension (suffix file_path).

(** What the planner is said to do on the in-memory file system: it
    returns a plan with one pending operation per discovered file, in
    order, whose target is the resolver's answer for the numbered name
    joined to the directory and does not exist; and when the numbered name
    satisfies [in_folder_when], it is joined as an entry of that very
    directory, where the target stays. *)
Definition plan_assigns (in_folder_when : string -> Prop)
           (fs : MemFS.memfs) (folder_path : Path) (pattern : string)
           (fuel : nat) : Prop :=
  let files := discover_files fs folder_path in
  exists plan,
    generate_rename_plan fuel fs folder_path pattern = Some plan /\
    List.length plan = List.length files /\
    forall i file_path,
      nth_error files i = Some file_path ->
      let nm := numbered_name pattern (Datatypes.S i) file_path in
      exists target_path,
        handle_name_conflict (fs_exists fs) fuel (folder_path // nm)
        = Some target_path /\
        nth_error plan i
        = Some {| source := file_path; target := target_path;
                  status := pending; error := None |} /\
        fs_exists fs target_path = false /\
        (in_folder_when nm ->
         placed_in folder_path nm (folder_path // nm) /\
         parent target_path = folder_path).

Module PlanExamples.

Import MemFS Examples.

(** [1.PNG -> photo1.png, 2.PNG -> photo2.png] *)
Definition first_plan : list RenameOperation :=
  [ {| source := photos // "1.PNG"; target := photos // "photo1.png";
       status := pending; error := None |};
    {| source := photos // "2.PNG"; target := photos // "photo2.png";
       status := pending; error := None |} ].

(** [photo1.png -> photo1_1.png, photo2.png -> photo2_1.png] *)
Definition second_plan : list RenameOperation :=
  [ {| source := photos // "photo1.png"; target := photos // "photo1_1.png";
       status := pending; error := None |};
    {| source := photos // "photo2.png"; target := photos // "photo2_1.png";
       status := pending; error := None |} ].

(** [1.PNG -> photo.png, 2.PNG -> photo.png] *)
Definition clashing_plan : list RenameOperation :=
  [ {| source := photos // "1.PNG"; target := photos // "photo.png";
       status := pending; error := None |};
    {| source := photos // "2.PNG"; target := photos // "photo.png";
       status := pending; error := None |} ].

(** A directory with the single file [1.PNG]. *)
Definition one_png : memfs :=
  [(parse "/", Directory); (photos, Directory);
   (photos // "1.PNG", RegularFile)].

Definition all_renamed : RenameResult :=
  {| total_files := 2; successful := 2; failed_ := 0; skipped_ := 0;
     errors := [] |}.

End PlanExamples.

(** [old in s]: the string [old] occurs somewhere in [s]. *)
Fixpoint occurs (old s : string) : bool :=
  match s with
  | EmptyString => prefix old EmptyString
  | String _ rest => prefix old s || occurs old rest
  end.

(* ===================================================================== *)
(** * class FileRenamer: validation, preview and run *)
(* ===================================================================== *)

(** Two more things [run] depends on: [p.is_dir()], and whether listing
    [p] raises ([Some e]: [p.iterdir()] raises [e] in this state, so
    [discover_files] does; [None]: it returns [fs_iterdir]). *)
Class FileSystemListing (S : Type) `{FileSystem S} : Type := {
  fs_is_dir : S -> Path -> bool;
  fs_listing_error : S -> Path -> option exn
}.

Definition mem_is_dir (fs : MemFS.memfs) (p : Path) : bool :=
  match MemFS.lookup_kind fs p with
  | Some MemFS.Directory => true
  | _ => false
  end.

(** Listing raises [FileNotFoundError] or [NotADirectoryError], both of
    them [OSError]s, unless the path is a directory. *)
Definition mem_listing_error (fs : MemFS.memfs) (p : Path) : option exn :=
  match MemFS.lookup_kind fs p with
  | Some MemFS.Directory => None
  | Some MemFS.RegularFile => Some (OSError "[Errno 20] Not a directory")
  | None => Some (OSError "[Errno 2] No such file or directory")
  end.

#[export] Instance memfs_FileSystemListing : FileSystemListing MemFS.memfs := {
  fs_is_dir := mem_is_dir;
  fs_listing_error := mem_listing_error
}.

(** [str(p)] *)
Definition path_str (p : Path) : string :=
  match is_absolute p, parts p with
  | false, [] => "."
  | false, ps => String.concat "/" ps
  | true, ps => "/" ++ String.concat "/" ps
  end.

(** [s * n] *)
Fixpoint times (s : string) (n : nat) : string :=
  match n with
  | O => EmptyString
  | S n' => s ++ times s n'
  end.

(** The newline character inside a printed string. *)
Definition nl : string := String (ascii_of_nat 10) EmptyString.

(** Standard output is the list of the strings handed to [print], one
    per call, oldest first. *)
Module Pipeline.
Section Methods.

Context {S : Type} `{FileSystemListing S}.

Definition validate_folder (fs : S) (folder_path : Path) : bool :=
  fs_exists fs folder_path && fs_is_dir fs folder_path.

(** What [preview_changes] prints for the plan in [self.rename_operations]. *)
Definition preview_changes (rename_operations : list RenameOperation) : list string :=
  match rename_operations with
  | [] => ["No rename operations planned. Run generate_rename_plan() first."]
  | _ =>
      List.app
        [nl ++ "Preview of rename operations:"; times "-" 60]
        (List.app
           (map (fun operation =>
                   let current_name := name (source operation) in
                   let new_name := name (target operation) in
                   current_name ++ " -> " ++ new_name)
                rename_operations)
           [times "-" 60;
            "Total files to be processed: "
            ++ PyStr.str (List.length rename_operations);
            ""])
  end.

(** The report printed after [execute_renames]. *)
Definition report (result : RenameResult) : list string :=
  List.app
    [nl ++ times "=" 60;
     "Rename Operation Complete";
     times "=" 60;
     "Total files processed: " ++ PyStr.str (total_files result);
     "Successfully renamed: " ++ PyStr.str (successful result);
     "Skipped (no change): " ++ PyStr.str (skipped_ result);
     "Failed: " ++ PyStr.str (failed_ result)]
    (List.app
       match errors result with
       | [] => [nl ++ "✓ All operations completed successfully!"]
       | _ => (nl ++ "Errors encountered:")
              :: map (fun error => "  - " ++ error) (errors result)
       end
       [times "=" 60]).

(** [run]: what is printed and the file system left behind. [None]
    stands for a run whose planning loop has not returned within [fuel]
    rounds. The handlers around planning, preview and execution have no
    counterpart: in this interface those steps do not raise. *)
Definition run (fuel : nat) (fs : S) (folder_path : Path) (pattern : string)
  : option (list string * S) :=
  let out :=
    [times "=" 60; "File Renamer - Starting Process"; times "=" 60;
     nl ++ "[1/5] Validating folder: " ++ path_str folder_path] in
  if negb (validate_folder fs folder_path) then
    Some (List.app out
            ["ERROR: Folder does not exist or is not a directory: "
             ++ path_str folder_path;
             "Process aborted."], fs)
  else
    let out :=
      List.app out ["✓ Folder validation successful";
                    nl ++ "[2/5] Discovering files in folder..."] in
    match fs_listing_error fs folder_path with
    | Some (PermissionError _) =>
        Some (List.app out
                ["ERROR: Permission denied when accessing folder: "
                 ++ path_str folder_path;
                 "Process aborted."], fs)
    | Some (OSError e) | Some (OtherException e) =>
        Some (List.app out
                ["ERROR: Failed to discover files: " ++ e;
                 "Process aborted."], fs)
    | None =>
        let files := discover_files fs folder_path in
        match files with
        | [] =>
            Some (List.app out
                    ["No files found in the folder.";
                     "Process completed - nothing to rename."], fs)
        | _ =>
            let out :=
              List.app out
                ["✓ Found " ++ PyStr.str (List.length files) ++ " file(s)";
                 nl ++ "[3/5] Generating rename plan..."] in
            operations <- generate_rename_plan fuel fs folder_path pattern ;;
            let out :=
              List.app out
                (List.app
                   ["✓ Generated rename plan for "
                    ++ PyStr.str (List.length operations) ++ " file(s)";
                    nl ++ "[4/5] Previewing changes..."]
                   (List.app (preview_changes operations)
                             ["[5/5] Executing rename operations..."])) in
            let '(result, _, fs') := execute_renames fs operations in
            Some (List.app out (report result), fs')
        end
    end.

End Methods.
End Pipeline.

Import Pipeline.

(** [result] is [target_path] renamed by the resolver: it lies in the same
    directory under the name [stem_k] followed by the old suffix, and when
    that suffix is not empty it is again the suffix, [stem_k] the stem. *)
Definition renamed_beside (target_path result : Path) : Prop :=
  exists k,
    1 <= k /\
    name result
    = stem target_path ++ "_" ++ PyStr.str k ++ suffix target_path /\
    parent result = parent target_path /\
    (suffix target_path <> "" ->
     suffix result = suffix target_path /\
     stem result = stem target_path ++ "_" ++ PyStr.str k).

(** [op'] is [op] after the executor: same source and target, and the old
    error field unless the operation failed. *)
Definition same_operation (op op' : RenameOperation) : Prop :=
  source op' = source op /\
  target op' = target op /\
  (status op' <> failed -> error op' = error op).

(** The sum of two results: counts add, errors follow one another. *)
Definition add_results (r1 r2 : RenameResult) : RenameResult :=
  {| total_files := total_files r1 + total_files r2;
     successful := successful r1 + successful r2;
     failed_ := failed_ r1 + failed_ r2;
     skipped_ := skipped_ r1 + skipped_ r2;
     errors := (errors r1 ++ errors r2)%list |}.

(** The error recorded for an operation whose source is missing. *)
Definition not_found_message (op : RenameOperation) : string :=
  "Source file not found: " ++ name (source op).

Definition marked_not_found (op : RenameOperation) : RenameOperation :=
  {| source := source op; target := target op;
     status := failed; error := Some (not_found_message op) |}.

Definition marked_skipped (op : RenameOperation) : RenameOperation :=
  {| source := source op; target := target op;
     status := skipped; error := error op |}.

(** The message [e] contains the file name of the source of [op]. *)
Definition names_source (op : RenameOperation) (e : string) : Prop :=
  exists before after, e = before ++ name (source op) ++ after.

Module ExecExamples.

Import MemFS Examples.

(** Two operations on sources that do not exist. *)
Definition gone_plan : list RenameOperation :=
  [ {| source := photos // "a.png"; target := photos // "photo1.png";
       status := pending; error := None |};
    {| source := photos // "b.png"; target := photos // "photo2.png";
       status := pending; error := None |} ].

(** Both files renamed to themselves. *)
Definition same_plan : list RenameOperation :=
  [ {| source := photos // "1.PNG"; target := photos // "1.PNG";
       status := pending; error := None |};
    {| source := photos // "2.PNG"; target := photos // "2.PNG";
       status := pending; error := None |} ].

End ExecExamples.

Section RunVocabulary.

Context {S : Type} `{FileSystemListing S}.

(** The run ends with [last_line] printed and the file system as it was. *)
Definition stops_early (fuel : nat) (fs : S) (folder_path : Path)
           (pattern last_line : string) : Prop :=
  exists out,
    run fuel fs folder_path pattern = Some (out, fs) /\
    last out "" = last_line.

End RunVocabulary.

Section ReportVocabulary.

Context {S : Type} `{FileSystemListing S}.

(** The run goes through to the report, renames as the plan says, and
    prints the number [n] at discovery, after planning, in the preview and
    in the report. *)
Definition reports_count (fuel : nat) (fs : S) (folder_path : Path)
           (pattern : string) (plan : list RenameOperation) (n : nat) : Prop :=
  exists out,
    run fuel fs folder_path pattern = Some (out, snd (execute_renames fs plan)) /\
    In ("✓ Found " ++ PyStr.str n ++ " file(s)") out /\
    In ("✓ Generated rename plan for " ++ PyStr.str n ++ " file(s)") out /\
    In ("Total files to be processed: " ++ PyStr.str n) out /\
    In ("Total files processed: " ++ PyStr.str n) out.

End ReportVocabulary.

(* ===================================================================== *)
(** * Properties *)
(* ===================================================================== *)

(** ** Text taken byte by byte *)

Lemma startswith_char_cons (x c : ascii) (s : string) :
  PyStr.startswith (String c s) (String x "") = Ascii.eqb c x.
Proof.
  unfold PyStr.startswith; cbn [prefix].
  destruct (ascii_dec x c) as [E|E].
  - subst. rewrite Ascii.eqb_refl. now destruct s.
  - symmetry. apply Ascii.eqb_neq. intros ->. now apply E.
Qed.

Lemma startswith_dot_cons (c : ascii) (s : string) :
  PyStr.startswith (String c s) "." = Ascii.eqb c ".".
Proof. apply startswith_char_cons. Qed.

(** C5, as stated, fails: an input that starts with two dots keeps both. *)
Lemma normalize_extension_keeps_two_dots :
  normalize_extension "..PNG" = "..png" /\
  starts_with_exactly_one_dot (normalize_extension "..PNG") = false.
Proof. split; reflexivity. Qed.

(** What [re.findall] puts first: nothing when the string has no digit,
    else the leftmost maximal run of digits. *)
Lemma findall_digits_head (s : string) :
  (string_forall not_digit s = true /\ PyStr.findall_digits s = []) \/
  (exists pre run post runs,
      s = pre ++ run ++ post /\
      string_forall not_digit pre = true /\
      run <> "" /\
      string_forall PyStr.is_digit run = true /\
      no_leading_digit post = true /\
      PyStr.findall_digits s = run :: runs).
Proof.
  induction s as [|c s IH].
  - left. split; reflexivity.
  - cbn [PyStr.findall_digits].
    destruct (PyStr.is_digit c) eqn:Hc.
    + right. destruct s as [|c' s'].
      * exists "", (String c ""), "", []. cbn. rewrite Hc.
        repeat split; congruence.
      * destruct (PyStr.is_digit c') eqn:Hc'.
        -- destruct IH as [[Hno _]|(pre & run & post & runs & Hs & Hpre & Hne & Hrun & Hpost & Hf)].
           { cbn in Hno. unfold not_digit in Hno. rewrite Hc' in Hno. discriminate. }
           destruct pre as [|x pre].
           2:{ cbn in Hs. injection Hs as <- _. cbn in Hpre.
               unfold not_digit in Hpre. rewrite Hc' in Hpre. discriminate. }
           rewrite Hf. exists "", (String c run), post, runs.
           cbn [append] in *. rewrite Hs. cbn [string_forall]. rewrite Hc, Hrun.
           repeat split; congruence.
        -- exists "", (String c ""), (String c' s'), (PyStr.findall_digits (String c' s')).
           cbn [append string_forall no_leading_digit]. unfold not_digit.
           rewrite Hc, Hc'. repeat split; congruence.
    + destruct IH as [[Hno Hf]|(pre & run & post & runs & Hs & Hpre & Hne & Hrun & Hpost & Hf)].
      * left. cbn [string_forall]. unfold not_digit at 1. rewrite Hc, Hno. now split.
      * right. exists (String c pre), run, post, runs.
        cbn [append string_forall]. unfold not_digit at 1. rewrite Hc, Hpre.
        repeat split; try assumption. now rewrite Hs.
Qed.

(** ** Collision resolver *)

Section ConflictLoop.

Variable exists_ : Path -> bool.

(** Below a free index there is a smallest free index. *)
Lemma least_free (cand : nat -> Path) (lo k : nat) :
  lo <= k -> exists_ (cand k) = false ->
  exists k0, lo <= k0 <= k /\ exists_ (cand k0) = false /\
             forall j, lo <= j < k0 -> exists_ (cand j) = true.
Proof.
  intros Hle Hfree. remember (k - lo) as d eqn:Hd.
  revert lo Hle Hd. induction d as [|d IH]; intros lo Hle Hd.
  - exists k. split; [lia|]. split; [assumption|]. intros j Hj. lia.
  - destruct (exists_ (cand lo)) eqn:Hlo.
    + destruct (IH (S lo)) as (k0 & Hk0 & Hf & Hmin); try lia.
      exists k0. split; [lia|]. split; [assumption|].
      intros j Hj. destruct (Nat.eq_dec j lo) as [->|Hne]; [assumption|].
      apply Hmin. lia.
    + exists lo. split; [lia|]. split; [assumption|]. intros j Hj. lia.
Qed.

(** The loop started at [counter] returns the first free candidate once
    the fuel reaches it. *)
Lemma conflict_loop_first_free (parent : Path) (stem suffix : string) (k fuel counter : nat) :
  counter <= k -> k - counter < fuel ->
  (forall j, counter <= j < k ->
             exists_ (parent // suffixed_name stem suffix j) = true) ->
  exists_ (parent // suffixed_name stem suffix k) = false ->
  conflict_loop exists_ parent stem suffix counter fuel
  = Some (parent // suffixed_name stem suffix k).
Proof.
  revert counter. induction fuel as [|fuel IH]; intros counter Hle Hfuel Hocc Hfree.
  - lia.
  - cbn [conflict_loop].
    destruct (Nat.eq_dec counter k) as [->|Hne].
    + now rewrite Hfree.
    + rewrite Hocc by lia. cbn [negb].
      apply IH; try lia; try assumption.
      intros j Hj. apply Hocc. lia.
Qed.

End ConflictLoop.

(** C4: under an existence predicate that leaves at least one suffixed
    candidate free, [handle_name_conflict] returns (as soon as the loop is
    given enough rounds) the desired path unchanged when the predicate does
    not hold of it, and otherwise [parent/stem_k.ext] for the smallest
    [k >= 1] whose candidate is free; the predicate never holds of the
    returned path. If [photo1.png] exists, resolving [photo1.png] yields
    [photo1_1.png]; if that exists too, [photo1_2.png]. *)
Theorem handle_name_conflict_first_free :
  (forall (exists_ : Path -> bool) (target_path : Path) (k : nat),
      1 <= k ->
      exists_ (candidate target_path k) = false ->
      resolves_to_first_free exists_ target_path k) /\
  handle_name_conflict (exists_in [parse "photo1.png"]) 1 (parse "photo1.png")
  = Some (parse "photo1_1.png") /\
  handle_name_conflict (exists_in [parse "photo1.png"; parse "photo1_1.png"]) 2
                       (parse "photo1.png")
  = Some (parse "photo1_2.png").
Proof.
  split; [|split; reflexivity].
  intros exists_ target_path k Hk Hfree.
  destruct (least_free exists_ (candidate target_path) 1 k Hk Hfree)
    as (k0 & Hk0 & Hfree0 & Hmin).
  exists k0. split; [lia|]. split; [assumption|]. split; [assumption|].
  intros fuel Hfuel. unfold handle_name_conflict.
  destruct (exists_ target_path) eqn:Hex; cbn [negb].
  - exists (candidate target_path k0). repeat split; try assumption.
    apply conflict_loop_first_free; try lia; assumption.
  - exists target_path. repeat split; assumption.
Qed.

(** The contract at a directory where [photo1.png] and [photo1_1.png]
    exist and [photo1_2.png] is free. *)
Lemma handle_name_conflict_photo1 :
  resolves_to_first_free
    (exists_in [parse "photo1.png"; parse "photo1_1.png"]) (parse "photo1.png") 2.
Proof.
  apply (proj1 handle_name_conflict_first_free).
  - lia.
  - reflexivity.
Defined.

(** ** File discovery: a stable sort by sequence key *)

Section SortByKeyFacts.

Context {A : Type} (key : A -> Z).

Lemma insert_by_key_perm (x : A) (l : list A) :
  Permutation (x :: l) (insert_by_key key x l).
Proof.
  induction l as [|y l IH]; cbn [insert_by_key]; [reflexivity|].
  destruct (key x <=? key y)%Z; [reflexivity|].
  rewrite perm_swap. now apply perm_skip.
Qed.

Lemma sort_by_key_perm (l : list A) : Permutation l (sort_by_key key l).
Proof.
  induction l as [|x l IH]; cbn [sort_by_key]; [reflexivity|].
  rewrite <- insert_by_key_perm. now apply perm_skip.
Qed.





End SortByKeyFacts.


(** ** Rename executor *)

Section ExecutorFacts.

Context {S : Type} `{FileSystem S}.

Lemma execute_one_outcome (st : ExecState) (op : RenameOperation) :
  exists op',
    processed (execute_one st op) = (processed st ++ [op'])%list /\
    outcome (st_fs st) (st_fs (execute_one st op)) op op'.
Proof.
  unfold execute_one, outcome.
  destruct (fs_exists (st_fs st) (source op)) eqn:Hex; cbn [negb].
  2:{ eexists. split; [reflexivity|]. cbn.
      repeat split; try discriminate; try congruence. }
  destruct (path_eqb (source op) (target op)) eqn:Heq.
  { eexists. split; [reflexivity|]. cbn.
    repeat split; try discriminate; try congruence. }
  destruct (fs_rename (st_fs st) (source op) (target op)) as [[m|m|m]|fs'];
    (eexists; split; [reflexivity|]; cbn;
     repeat split; try discriminate; try congruence).
Qed.

Lemma run_processed (l : list RenameOperation) (st : ExecState) :
  exists done,
    processed (fold_left execute_one l st) = (processed st ++ done)%list /\
    List.length done = List.length l.
Proof.
  revert st. induction l as [|op l IH]; intros st; cbn [fold_left].
  - exists []. now rewrite app_nil_r.
  - destruct (IH (execute_one st op)) as (done & Hdone & Hlen).
    destruct (execute_one_outcome st op) as (op' & Hop & _).
    exists (op' :: done). rewrite Hdone, Hop, <- app_assoc.
    split; [reflexivity|]. cbn. now rewrite Hlen.
Qed.

(** The operation at position [i] is met in the state the first [i]
    operations leave, and later operations do not touch its record. *)
Lemma run_nth (plan : list RenameOperation) (fs : S) (i : nat) (op : RenameOperation) :
  nth_error plan i = Some op ->
  exists op',
    nth_error (processed (run_operations fs plan)) i = Some op' /\
    outcome (fs_before fs plan i) (fs_before fs plan (Datatypes.S i)) op op'.
Proof.
  intros Hnth.
  destruct (nth_error_split plan i Hnth) as (l1 & l2 & Hplan & Hlen).
  unfold fs_before, run_operations. subst plan.
  assert (H1 : firstn i (l1 ++ op :: l2) = l1).
  { rewrite <- Hlen. rewrite firstn_app, firstn_all, Nat.sub_diag. cbn.
    apply app_nil_r. }
  assert (H2 : firstn (Datatypes.S i) (l1 ++ op :: l2) = (l1 ++ [op])%list).
  { rewrite <- Hlen. rewrite firstn_app, firstn_all2 by lia.
    replace (Datatypes.S (List.length l1) - List.length l1) with 1 by lia.
    reflexivity. }
  rewrite H1, H2, !fold_left_app. cbn [fold_left].
  set (st := fold_left execute_one l1 (initial_state fs)).
  destruct (execute_one_outcome st op) as (op' & Hop & Hout).
  exists op'. split; [|exact Hout].
  destruct (run_processed l2 (execute_one st op)) as (done & Hdone & _).
  destruct (run_processed l1 (initial_state fs)) as (done1 & Hdone1 & Hlen1).
  fold st in Hdone1. cbn in Hdone1.
  rewrite Hdone, Hop, Hdone1, <- app_assoc.
  rewrite nth_error_app2 by lia.
  replace (i - List.length done1) with 0 by lia. reflexivity.
Qed.

Lemma execute_renames_unfold (fs : S) (plan : list RenameOperation) :
  plan <> [] ->
  execute_renames fs plan
  = ({| total_files := List.length plan;
        successful := successful_count (run_operations fs plan);
        failed_ := failed_count (run_operations fs plan);
        skipped_ := skipped_count (run_operations fs plan);
        errors := error_messages (run_operations fs plan) |},
     processed (run_operations fs plan), st_fs (run_operations fs plan)).
Proof. destruct plan; [congruence | reflexivity]. Qed.

End ExecutorFacts.

(** C8: the executor processes every operation of the plan in list order
    and leaves each with a final status. Met in the file system the
    earlier operations left, an operation whose source does not exist is
    marked failed with a source-not-found error; else one whose source
    equals its target is marked skipped and the file system is left as it
    is; else the rename is attempted, and if it raises, whatever the
    error, the operation is marked failed with an error string made of the
    file name and the error's text. In the first two cases and after a
    failed rename the next operation meets the same file system: no
    failure keeps a later operation from being processed. *)
Theorem execute_renames_processes_every_operation
        (S : Type) (FS : FileSystem S) (fs : S)
        (plan : list RenameOperation) (i : nat) (op : RenameOperation) :
  nth_error plan i = Some op ->
  processed_in_turn fs plan i op.
Proof.
  intros Hnth. unfold processed_in_turn.
  assert (Hne : plan <> []) by (intros ->; destruct i; discriminate).
  rewrite (execute_renames_unfold fs plan Hne).
  split; [|split].
  - destruct (run_processed plan (initial_state fs)) as (done & Hdone & Hlen).
    unfold run_operations. rewrite Hdone. cbn. exact Hlen.
  - unfold fs_before. now rewrite firstn_all.
  - now apply run_nth.
Qed.

(** After a missing source and a skipped operation, the third operation
    of [mixed_plan] is still processed. *)
Lemma execute_renames_mixed_plan :
  processed_in_turn Examples.two_pngs Examples.mixed_plan 2
    {| source := Examples.photos // "2.PNG";
       target := Examples.photos // "photo3.png";
       status := pending; error := None |}.
Proof.
  apply execute_renames_processes_every_operation. reflexivity.
Defined.

(** The whole of [mixed_plan]: failed, skipped, success, and one error. *)
Lemma execute_renames_mixed_plan_result :
  let '(result, ops, _) := execute_renames Examples.two_pngs Examples.mixed_plan in
  result = {| total_files := 3; successful := 1; failed_ := 1; skipped_ := 1;
              errors := ["Source file not found: gone.png"] |} /\
  map status ops = [failed; skipped; success].
Proof. split; reflexivity. Qed.

Lemma count_status_app (s : Status) (l1 l2 : list RenameOperation) :
  count_status s (l1 ++ l2) = count_status s l1 + count_status s l2.
Proof. unfold count_status. now rewrite filter_app, length_app. Qed.

Lemma failed_errors_app (l1 l2 : list RenameOperation) :
  failed_errors (l1 ++ l2) = (failed_errors l1 ++ failed_errors l2)%list.
Proof.
  induction l1 as [|op l1 IH]; [reflexivity|].
  simpl. destruct (status op), (error op); simpl; now rewrite ?IH.
Qed.

Lemma count_status_total (ops : list RenameOperation) :
  List.length ops
  = count_status pending ops + count_status success ops
    + count_status failed ops + count_status skipped ops.
Proof.
  induction ops as [|op ops IH]; [reflexivity|].
  unfold count_status in *. cbn [filter List.length].
  destruct (status op); cbn; lia.
Qed.

Section TallyFacts.

Context {S : Type} `{FileSystem S}.

Ltac read_fields :=
  cbn [st_fs successful_count failed_count skipped_count error_messages
       processed status error].

Ltac settle_tally :=
  rewrite !count_status_app, failed_errors_app, ?length_app;
  unfold count_status at 2 4 6 8; simpl;
  rewrite ?app_nil_r; repeat split; first [lia | congruence].

Lemma mark_failed_tally (st : @ExecState S) (op : RenameOperation) (msg : string) :
  tally_ok st -> tally_ok (mark_failed st op msg).
Proof.
  unfold tally_ok, mark_failed. read_fields.
  intros (Hs & Hf & Hk & Hp & He & Hl). settle_tally.
Qed.

Lemma execute_one_tally (st : @ExecState S) (op : RenameOperation) :
  tally_ok st -> tally_ok (execute_one st op).
Proof.
  intros Hst. unfold execute_one.
  destruct (negb (fs_exists (st_fs st) (source op)));
    [now apply mark_failed_tally|].
  destruct (path_eqb (source op) (target op)).
  { revert Hst. unfold tally_ok. read_fields.
    intros (Hs & Hf & Hk & Hp & He & Hl). settle_tally. }
  destruct (fs_rename (st_fs st) (source op) (target op)) as [[m|m|m]|fs'];
    try now apply mark_failed_tally.
  revert Hst. unfold tally_ok. read_fields.
  intros (Hs & Hf & Hk & Hp & He & Hl). settle_tally.
Qed.

Lemma run_tally (l : list RenameOperation) (st : @ExecState S) :
  tally_ok st -> tally_ok (fold_left execute_one l st).
Proof.
  revert st. induction l as [|op l IH]; intros st Hst; [exact Hst|].
  cbn [fold_left]. apply IH. now apply execute_one_tally.
Qed.

End TallyFacts.

(** C9: for every plan, the [RenameResult] of the executor has
    [total_files] equal to the length of the plan and to
    [successful + failed + skipped]; each count is the number of operations
    left in that status; and [errors] holds the error strings of the failed
    operations, one for each, in the order the failures occurred. *)
Theorem execute_renames_tally
        (S : Type) (FS : FileSystem S) (fs : S) (plan : list RenameOperation) :
  let '(result, ops, _) := execute_renames fs plan in
  total_files result = List.length plan /\
  List.length ops = List.length plan /\
  total_files result = successful result + failed_ result + skipped_ result /\
  successful result = count_status success ops /\
  failed_ result = count_status failed ops /\
  skipped_ result = count_status skipped ops /\
  errors result = failed_errors ops /\
  List.length (errors result) = failed_ result.
Proof.
  destruct plan as [|op0 plan0] eqn:Hplan.
  - cbn. repeat split; reflexivity.
  - rewrite <- Hplan. rewrite execute_renames_unfold by (rewrite Hplan; discriminate).
    assert (Ht : tally_ok (run_operations fs plan)).
    { apply run_tally. unfold tally_ok. cbn. repeat split; reflexivity. }
    destruct (run_processed plan (initial_state fs)) as (done & Hdone & Hlen).
    fold (run_operations fs plan) in Hdone. cbn in Hdone.
    destruct Ht as (Hs & Hf & Hk & Hp & He & Hl).
    cbn [total_files successful failed_ skipped_ errors].
    pose proof (count_status_total (processed (run_operations fs plan))) as Htot.
    rewrite Hdone in Htot at 1. rewrite Hlen in Htot.
    repeat split; try assumption; try lia.
    now rewrite Hdone.
Qed.

(** ** Strings and paths *)

Lemma length_append (a b : string) :
  String.length (a ++ b) = String.length a + String.length b.
Proof. induction a as [|x a IH]; cbn; [reflexivity | now rewrite IH]. Qed.

Lemma append_cancel_l (a b c : string) : a ++ b = a ++ c -> b = c.
Proof.
  induction a as [|x a IH]; cbn; intros Heq; [assumption|].
  injection Heq as Heq. now apply IH.
Qed.

Lemma append_cancel_r (a b c : string) : a ++ c = b ++ c -> a = b.
Proof.
  revert b. induction a as [|x a IH]; intros [|y b] Heq; cbn in Heq.
  - reflexivity.
  - apply (f_equal String.length) in Heq. cbn in Heq.
    rewrite length_append in Heq. lia.
  - apply (f_equal String.length) in Heq. cbn in Heq.
    rewrite length_append in Heq. lia.
  - injection Heq as -> Heq. f_equal. now apply IH.
Qed.

Lemma str_inj (k k' : nat) : PyStr.str k = PyStr.str k' -> k = k'.
Proof.
  unfold PyStr.str. intros Heq. apply Unsigned.to_uint_inj.
  assert (Hsome : Some (Nat.to_uint k) = Some (Nat.to_uint k')).
  { rewrite <- !NilEmpty.usu. now rewrite Heq. }
  now injection Hsome.
Qed.

Lemma suffixed_name_inj (stem suffix : string) (k k' : nat) :
  suffixed_name stem suffix k = suffixed_name stem suffix k' -> k = k'.
Proof.
  unfold suffixed_name. intros Heq.
  apply append_cancel_l, append_cancel_l, append_cancel_r in Heq.
  now apply str_inj.
Qed.

Lemma has_slash_append (a b : string) :
  PyStr.has_slash (a ++ b) = PyStr.has_slash a || PyStr.has_slash b.
Proof.
  induction a as [|x a IH]; cbn; [reflexivity|]. now rewrite IH, orb_assoc.
Qed.

Lemma has_slash_uint (d : uint) :
  PyStr.has_slash (NilEmpty.string_of_uint d) = false.
Proof. induction d; cbn; assumption || reflexivity. Qed.

Lemma has_slash_substring (s : string) (i n : nat) :
  PyStr.has_slash s = false -> PyStr.has_slash (substring i n s) = false.
Proof.
  revert i n. induction s as [|c s IH]; intros i n Hs.
  - destruct i, n; reflexivity.
  - cbn in Hs. apply orb_false_iff in Hs as [Hc Hs].
    destruct i as [|i]; [destruct n as [|n]|]; cbn.
    + reflexivity.
    + rewrite Hc. cbn. now apply IH.
    + now apply IH.
Qed.

Lemma split_slash_no_slash (s : string) :
  PyStr.has_slash s = false -> PyStr.split_slash s = [s].
Proof.
  induction s as [|c s IH]; cbn; intros Hs; [reflexivity|].
  apply orb_false_iff in Hs as [Hc Hs]. now rewrite Hc, IH.
Qed.

Lemma split_slash_pieces (s : string) :
  Forall (fun c => PyStr.has_slash c = false) (PyStr.split_slash s).
Proof.
  induction s as [|c s IH]; cbn.
  - now constructor.
  - destruct (Ascii.eqb c "/") eqn:Hc.
    + now constructor.
    + destruct (PyStr.split_slash s) as [|h t].
      * constructor; [|constructor]. cbn. now rewrite Hc.
      * inversion IH as [|? ? Hh Ht]; subst.
        constructor; [|assumption]. cbn. now rewrite Hc, Hh.
Qed.

Lemma parts_eqb_eq (l1 l2 : list string) : parts_eqb l1 l2 = true <-> l1 = l2.
Proof.
  revert l2. induction l1 as [|c1 l1 IH]; intros [|c2 l2]; cbn;
    try (split; congruence).
  rewrite andb_true_iff, String.eqb_eq, IH. split.
  - now intros [-> ->].
  - intros Heq. now injection Heq.
Qed.

Lemma path_eqb_eq (p q : Path) : path_eqb p q = true <-> p = q.
Proof.
  destruct p as [a l], q as [b m]. unfold path_eqb. cbn.
  rewrite andb_true_iff, parts_eqb_eq, Bool.eqb_true_iff. split.
  - now intros [-> ->].
  - intros Heq. now injection Heq.
Qed.

Lemma wf_parse (s : string) : wf (parse s).
Proof.
  unfold wf, parse. cbn. apply Forall_forall. intros c Hin.
  apply filter_In in Hin as [Hin Hkeep].
  unfold is_component. rewrite Hkeep.
  pose proof (split_slash_pieces s) as Hp.
  rewrite Forall_forall in Hp. now rewrite (Hp c Hin).
Qed.

Lemma wf_join (p : Path) (s : string) : wf p -> wf (p // s).
Proof.
  intros Hp. unfold join.
  destruct (is_absolute (parse s)); [apply wf_parse|].
  unfold wf. cbn. apply Forall_app. split; [exact Hp | apply wf_parse].
Qed.

Lemma parse_component (s : string) :
  is_component s = true -> parse s = {| is_absolute := false; parts := [s] |}.
Proof.
  unfold is_component. intros Hs.
  apply andb_true_iff in Hs as [Hkeep Hslash].
  apply negb_true_iff in Hslash.
  unfold parse. rewrite (split_slash_no_slash s Hslash). cbn [filter].
  rewrite Hkeep. f_equal.
  destruct s as [|c s]; [reflexivity|].
  rewrite startswith_char_cons. cbn in Hslash.
  now apply orb_false_iff in Hslash as [Hc _].
Qed.

Lemma join_component (p : Path) (s : string) :
  is_component s = true ->
  p // s = {| is_absolute := is_absolute p; parts := (parts p ++ [s])%list |}.
Proof. intros Hs. unfold join. now rewrite (parse_component s Hs). Qed.

Lemma parent_join_component (p : Path) (s : string) :
  is_component s = true -> parent (p // s) = p.
Proof.
  intros Hs. rewrite (join_component p s Hs). unfold parent. cbn.
  rewrite removelast_last. now destruct p.
Qed.

Lemma name_join_component (p : Path) (s : string) :
  is_component s = true -> name (p // s) = s.
Proof.
  intros Hs. rewrite (join_component p s Hs). unfold name. cbn.
  apply last_last.
Qed.

Lemma name_no_slash (p : Path) : wf p -> PyStr.has_slash (name p) = false.
Proof.
  unfold wf, name. induction 1 as [|c l Hc Hl IH]; [reflexivity|].
  destruct l as [|c' l]; cbn [last].
  - unfold is_component in Hc. apply andb_true_iff in Hc as [_ Hc].
    now apply negb_true_iff in Hc.
  - exact IH.
Qed.

Lemma stem_no_slash (p : Path) : wf p -> PyStr.has_slash (stem p) = false.
Proof.
  intros Hp. unfold stem. pose proof (name_no_slash p Hp) as Hn.
  destruct (suffix_start (name p)); [now apply has_slash_substring | exact Hn].
Qed.

Lemma suffix_no_slash (p : Path) : wf p -> PyStr.has_slash (suffix p) = false.
Proof.
  intros Hp. unfold suffix. pose proof (name_no_slash p Hp) as Hn.
  destruct (suffix_start (name p)); [now apply has_slash_substring | reflexivity].
Qed.

Lemma suffixed_name_component (stem suffix : string) (k : nat) :
  PyStr.has_slash stem = false -> PyStr.has_slash suffix = false ->
  is_component (suffixed_name stem suffix k) = true.
Proof.
  intros Hstem Hsuffix. unfold is_component, suffixed_name.
  apply andb_true_iff. split.
  - unfold keeps_component.
    destruct stem as [|c [|c' r]]; cbn; try reflexivity;
      destruct (Ascii.eqb c "."); reflexivity.
  - rewrite !has_slash_append, Hstem, Hsuffix. unfold PyStr.str.
    now rewrite has_slash_uint.
Qed.

(** The candidates of a well-formed target are its siblings. *)
Lemma candidate_shape (target_path : Path) (k : nat) :
  wf target_path ->
  candidate target_path k
  = {| is_absolute := is_absolute target_path;
       parts := (removelast (parts target_path)
                 ++ [suffixed_name (stem target_path) (suffix target_path) k])%list |}.
Proof.
  intros Hp. unfold candidate. rewrite join_component; [reflexivity|].
  apply suffixed_name_component; [now apply stem_no_slash | now apply suffix_no_slash].
Qed.

Lemma candidate_inj (target_path : Path) (k k' : nat) :
  wf target_path ->
  candidate target_path k = candidate target_path k' -> k = k'.
Proof.
  intros Hp. rewrite !candidate_shape by assumption. intros Heq.
  injection Heq as Heq. apply app_inj_tail in Heq as [_ Heq].
  now apply suffixed_name_inj in Heq.
Qed.

Lemma parent_candidate (target_path : Path) (k : nat) :
  wf target_path -> parent (candidate target_path k) = parent target_path.
Proof.
  intros Hp. unfold candidate. apply parent_join_component.
  apply suffixed_name_component; [now apply stem_no_slash | now apply suffix_no_slash].
Qed.

(** ** The resolver returns on a finite file system *)

Lemma resolver_returns (exists_ : Path -> bool) (target_path : Path) (k fuel : nat) :
  1 <= k <= fuel ->
  exists_ (candidate target_path k) = false ->
  exists result,
    handle_name_conflict exists_ fuel target_path = Some result /\
    exists_ result = false /\
    (result = target_path \/ exists k0, 1 <= k0 /\ result = candidate target_path k0).
Proof.
  intros Hk Hfree.
  destruct (least_free exists_ (candidate target_path) 1 k (proj1 Hk) Hfree)
    as (k0 & Hk0 & Hfree0 & Hmin).
  unfold handle_name_conflict.
  destruct (exists_ target_path) eqn:Hex; cbn [negb].
  - exists (candidate target_path k0). split; [|split].
    + apply conflict_loop_first_free; try lia; assumption.
    + assumption.
    + right. exists k0. split; [lia | reflexivity].
  - exists target_path. repeat split; [assumption | now left].
Qed.

Lemma all_or_one_free (P : nat -> bool) (n : nat) :
  (exists k, 1 <= k <= n /\ P k = false) \/ (forall k, 1 <= k <= n -> P k = true).
Proof.
  induction n as [|n [(k & Hk & Hf)|Hall]].
  - right. intros k Hk. lia.
  - left. exists k. split; [lia | assumption].
  - destruct (P (Datatypes.S n)) eqn:Hn.
    + right. intros k Hk.
      destruct (Nat.eq_dec k (Datatypes.S n)) as [->|Hne]; [assumption|].
      apply Hall. lia.
    + left. exists (Datatypes.S n). split; [lia | assumption].
Qed.

Lemma mem_exists_In (fs : MemFS.memfs) (p : Path) :
  MemFS.mem_exists fs p = true <-> In p (map fst fs).
Proof.
  unfold MemFS.mem_exists. rewrite existsb_exists, in_map_iff. split.
  - intros (e & Hin & Heq). apply path_eqb_eq in Heq. now exists e.
  - intros (e & Heq & Hin). exists e. split; [assumption|].
    now apply path_eqb_eq.
Qed.

(** Pigeonhole: the first [n + 1] candidates are pairwise distinct, so a
    file system of [n] paths leaves one of them free. *)
Lemma memfs_free_candidate (fs : MemFS.memfs) (target_path : Path) :
  wf target_path ->
  exists k, 1 <= k <= Datatypes.S (List.length fs) /\
            MemFS.mem_exists fs (candidate target_path k) = false.
Proof.
  intros Hp.
  destruct (all_or_one_free (fun k => MemFS.mem_exists fs (candidate target_path k))
                            (Datatypes.S (List.length fs))) as [Hone|Hall];
    [exact Hone|].
  exfalso.
  set (cands := map (candidate target_path) (seq 1 (Datatypes.S (List.length fs)))).
  assert (Hnd : NoDup cands).
  { apply Finite.Injective_map_NoDup; [|apply seq_NoDup].
    intros k k'. now apply candidate_inj. }
  assert (Hincl : incl cands (map fst fs)).
  { intros p Hin. apply in_map_iff in Hin as (k & <- & Hk).
    apply in_seq in Hk. apply mem_exists_In. apply Hall. lia. }
  pose proof (NoDup_incl_length Hnd Hincl) as Hlen.
  unfold cands in Hlen. rewrite !length_map, length_seq in Hlen. lia.
Qed.

Lemma memfs_resolver_returns (fs : MemFS.memfs) (fuel : nat) (target_path : Path) :
  wf target_path ->
  List.length fs < fuel ->
  exists result,
    handle_name_conflict (fs_exists fs) fuel target_path = Some result /\
    fs_exists fs result = false /\
    (result = target_path \/ exists k0, 1 <= k0 /\ result = candidate target_path k0).
Proof.
  intros Hp Hfuel.
  destruct (memfs_free_candidate fs target_path Hp) as (k & Hk & Hfree).
  apply (resolver_returns (fs_exists fs) target_path k fuel); [lia | exact Hfree].
Qed.

(** ** The planning loop *)

Section PlanFacts.

Context {S : Type} `{FileSystem S}.

Variables (fuel : nat) (fs : S) (folder_path : Path) (pattern : string).

Hypothesis resolver_total :
  forall target_path, wf target_path ->
    exists result,
      handle_name_conflict (fs_exists fs) fuel target_path = Some result.

Hypothesis folder_wf : wf folder_path.

(** The loop started at [index] gives the file at offset [i] the name
    numbered [index + i]. *)
Lemma plan_from_assigns (files : list Path) (index : nat) :
  exists plan,
    plan_from fuel fs folder_path pattern index files = Some plan /\
    List.length plan = List.length files /\
    forall i file_path,
      nth_error files i = Some file_path ->
      exists target_path,
        handle_name_conflict (fs_exists fs) fuel
          (folder_path // numbered_name pattern (index + i) file_path)
        = Some target_path /\
        nth_error plan i
        = Some {| source := file_path; target := target_path;
                  status := pending; error := None |}.
Proof.
  revert index. induction files as [|f files IH]; intros index.
  - exists []. repeat split. intros [|i] ? Hnth; discriminate.
  - cbn [plan_from].
    destruct (resolver_total (folder_path // new_name pattern index f))
      as (t & Ht); [now apply wf_join|].
    rewrite Ht.
    destruct (IH (Datatypes.S index)) as (plan & Hplan & Hlen & Hnth).
    rewrite Hplan. eexists. split; [reflexivity|]. split; [cbn; now rewrite Hlen|].
    intros [|i] file_path Hi; cbn in Hi.
    + injection Hi as <-. exists t. rewrite Nat.add_0_r. split; [exact Ht | reflexivity].
    + destruct (Hnth i file_path Hi) as (t' & Ht' & Hop).
      exists t'. rewrite Nat.add_succ_r. split; [exact Ht' | exact Hop].
Qed.

End PlanFacts.

(** ** Rename planner *)

(** C1 at the pattern [sub/photo{n}]: the claim, like the comment in the
    loop ("create the target path in the same directory"), has every target
    placed in the directory itself, but the name is joined to the directory
    path unchecked. For a directory holding [1.PNG] the plan is
    [1.PNG -> /photos/sub/photo1.png]: the target lies in [/photos/sub],
    not in [/photos], and is not called [sub/photo1.png]. *)
Lemma generate_rename_plan_leaves_folder :
  generate_rename_plan 4 PlanExamples.one_png Examples.photos "sub/photo{n}"
  = Some [ {| source := Examples.photos // "1.PNG";
              target := parse "/photos/sub/photo1.png";
              status := pending; error := None |} ] /\
  parent (parse "/photos/sub/photo1.png") = parse "/photos/sub" /\
  parent (parse "/photos/sub/photo1.png") <> Examples.photos /\
  ~ plan_assigns (fun _ => True) PlanExamples.one_png Examples.photos
      "sub/photo{n}" 4.
Proof.
  split; [reflexivity|]. split; [reflexivity|]. split; [discriminate|].
  intros (plan & _ & _ & Hall).
  destruct (Hall 0 (Examples.photos // "1.PNG") eq_refl) as (t & _ & _ & _ & Hside).
  destruct (Hside I) as [[Hparent _] _].
  vm_compute in Hparent. discriminate Hparent.
Qed.



(** C10: for a source file whose name yields an empty suffix, the name
    the planner builds is the pattern with [{n}] replaced, followed by a
    bare dot: the empty extension normalizes to ["."] and is appended. In
    a plan, the path handed to the resolver for such a file at 1-based
    position [i] is the directory joined with that dotted name. [README]
    and [.hidden] are such files. *)
Theorem new_name_empty_suffix :
  (forall (pattern : string) (index : nat) (file_path : Path),
      suffix file_path = "" ->
      new_name pattern index file_path
      = PyStr.replace pattern "{n}" (PyStr.str index) ++ ".") /\
  (forall (fs : MemFS.memfs) (folder pattern : string) (fuel : nat),
      List.length fs < fuel ->
      exists plan,
        generate_rename_plan fuel fs (parse folder) pattern = Some plan /\
        forall i file_path,
          nth_error (discover_files fs (parse folder)) i = Some file_path ->
          suffix file_path = "" ->
          exists target_path,
            handle_name_conflict (fs_exists fs) fuel
              (parse folder
               // (PyStr.replace pattern "{n}" (PyStr.str (Datatypes.S i)) ++ "."))
            = Some target_path /\
            nth_error plan i
            = Some {| source := file_path; target := target_path;
                      status := pending; error := None |}) /\
  suffix (parse "README") = "" /\
  suffix (parse ".hidden") = "".
Proof.
  assert (Hname : forall pattern index file_path,
             suffix file_path = "" ->
             new_name pattern index file_path
             = PyStr.replace pattern "{n}" (PyStr.str index) ++ ".").
  { intros pattern index file_path Hs. unfold new_name. now rewrite Hs. }
  split; [exact Hname|]. split; [|split; reflexivity].
  intros fs folder pattern fuel Hfuel.
  destruct (plan_from_assigns fuel fs (parse folder) pattern) with
      (files := discover_files fs (parse folder)) (index := 1)
    as (plan & Hplan & _ & Hnth).
  { intros t Ht. destruct (memfs_resolver_returns fs fuel t Ht Hfuel) as (r & Hr & _).
    now exists r. }
  { apply wf_parse. }
  exists plan. split; [exact Hplan|].
  intros i file_path Hi Hs.
  destruct (Hnth i file_path Hi) as (t & Ht & Hop).
  exists t. split; [|exact Hop].
  rewrite <- Ht. unfold numbered_name. now rewrite Hs.
Qed.

(** [README], met first, gets the name [photo1.]. *)
Lemma new_name_README :
  new_name "photo{n}" 1 (parse "README") = "photo1.".
Proof.
  rewrite (proj1 new_name_empty_suffix "photo{n}" 1 (parse "README") eq_refl).
  reflexivity.
Defined.

(** ** Where the planner and the specification part *)

(** The resolver never answers with an existing path. *)
Lemma handle_name_conflict_free (exists_ : Path -> bool) (fuel : nat)
      (target_path result : Path) :
  handle_name_conflict exists_ fuel target_path = Some result ->
  exists_ result = false.
Proof.
  unfold handle_name_conflict.
  destruct (exists_ target_path) eqn:Hex; cbn [negb].
  2:{ intros Heq. injection Heq as <-. exact Hex. }
  generalize 1 at 1. induction fuel as [|fuel IH]; intros counter; cbn [conflict_loop].
  - discriminate.
  - destruct (exists_ (parent target_path
                       // suffixed_name (stem target_path) (suffix target_path) counter))
             eqn:Hc; cbn [negb].
    + apply IH.
    + intros Heq. injection Heq as <-. exact Hc.
Qed.

Section PlannedTargets.

Context {S : Type} `{FileSystem S}.

Lemma plan_from_operations (fuel : nat) (fs : S) (folder_path : Path)
      (pattern : string) (files : list Path) (index : nat)
      (plan : list RenameOperation) :
  plan_from fuel fs folder_path pattern index files = Some plan ->
  forall op, In op plan ->
             In (source op) files /\ fs_exists fs (target op) = false.
Proof.
  revert index plan. induction files as [|f files IH]; intros index plan; cbn [plan_from].
  - intros Heq. injection Heq as <-. intros op [].
  - destruct (handle_name_conflict (fs_exists fs) fuel
                (folder_path // new_name pattern index f)) as [t|] eqn:Ht;
      [|discriminate].
    destruct (plan_from fuel fs folder_path pattern (Datatypes.S index) files)
      as [rest|] eqn:Hrest; [|discriminate].
    intros Heq. injection Heq as <-. intros op [<-|Hin].
    + cbn. split; [now left|].
      now apply (handle_name_conflict_free _ _ _ _ Ht).
    + destruct (IH _ _ Hrest op Hin) as [Hsrc Hfree]. split; [now right | exact Hfree].
Qed.

End PlannedTargets.

(** On the in-memory file system every planned source exists and no
    planned target does: no operation of a plan has its source as target,
    so an executor that finds the directory as planned skips nothing. *)
Lemma planned_source_differs_from_target
      (fs : MemFS.memfs) (folder_path : Path) (pattern : string) (fuel : nat)
      (plan : list RenameOperation) :
  generate_rename_plan fuel fs folder_path pattern = Some plan ->
  forall op, In op plan ->
    fs_exists fs (source op) = true /\
    fs_exists fs (target op) = false /\
    path_eqb (source op) (target op) = false.
Proof.
  unfold generate_rename_plan. intros Hplan op Hin.
  destruct (plan_from_operations _ _ _ _ _ _ _ Hplan op Hin) as [Hsrc Hfree].
  assert (Hex : fs_exists fs (source op) = true).
  { unfold discover_files in Hsrc.
    apply (Permutation_in _ (Permutation_sym (sort_by_key_perm _ _))) in Hsrc.
    apply filter_In in Hsrc as [Hsrc _].
    apply mem_exists_In. cbn in Hsrc. unfold MemFS.mem_iterdir in Hsrc.
    apply in_map_iff in Hsrc as (e & <- & He). apply filter_In in He as [He _].
    now apply in_map. }
  split; [exact Hex|]. split; [exact Hfree|].
  destruct (path_eqb (source op) (target op)) eqn:Heq; [|reflexivity].
  apply path_eqb_eq in Heq. rewrite Heq in Hex. congruence.
Qed.

(** Without the token in the pattern nothing is replaced: the name before
    the extension is the pattern itself at every index. *)
Lemma replace_absent (old new s : string) :
  occurs old s = false -> PyStr.replace s old new = s.
Proof.
  unfold PyStr.replace. induction s as [|c s IH]; [reflexivity|].
  cbn [occurs PyStr.replace_from]. intros Hocc.
  apply orb_false_iff in Hocc as [Hpre Hocc].
  now rewrite Hpre, IH.
Qed.

Lemma new_name_without_token (pattern : string) (index : nat) (file_path : Path) :
  occurs "{n}" pattern = false ->
  new_name pattern index file_path
  = pattern ++ normalize_extension (suffix file_path).
Proof. intros Hocc. unfold new_name. now rewrite replace_absent. Qed.

(** C2 at the renamed directory: the second run plans
    [photo1.png -> photo1_1.png, photo2.png -> photo2_1.png], since each
    file is found to occupy its own target name, and the executor renames
    both files and skips none. *)
Theorem second_run_renames_again :
  generate_rename_plan 5 Examples.renamed_pngs Examples.photos "photo{n}"
  = Some PlanExamples.second_plan /\
  (let '(result, _, fs_end) :=
     execute_renames Examples.renamed_pngs PlanExamples.second_plan in
   result = PlanExamples.all_renamed /\
   skipped_ result = 0 /\
   fs_iterdir fs_end Examples.photos
   = [Examples.photos // "photo1_1.png"; Examples.photos // "photo2_1.png"]).
Proof. repeat split. Qed.

(** C3 at the directory of [1.PNG] and [2.PNG] with pattern [photo]:
    neither file exists under the name [photo.png] while the plan is made,
    so both operations get that one target; executed, the second rename
    replaces the file the first one produced. *)
Theorem plan_without_token_clashes :
  generate_rename_plan 5 Examples.two_pngs Examples.photos "photo"
  = Some PlanExamples.clashing_plan /\
  map target PlanExamples.clashing_plan
  = [Examples.photos // "photo.png"; Examples.photos // "photo.png"] /\
  (let '(result, _, fs_end) :=
     execute_renames Examples.two_pngs PlanExamples.clashing_plan in
   result = PlanExamples.all_renamed /\
   fs_iterdir fs_end Examples.photos = [Examples.photos // "photo.png"]).
Proof. repeat split. Qed.

(* ===================================================================== *)
(** * Further properties of the code *)
(* ===================================================================== *)

(** ** discover_files *)

(** X4: [discover_files] returns the regular files of the listing and
    nothing else: a path is in the result exactly when the directory lists
    it and it is a regular file, so no subdirectory is ever returned, and
    the result has as many entries as the listing has regular files. *)
Theorem discover_files_only_regular_files
        (S : Type) (FS : FileSystem S) (fs : S) (folder_path : Path) :
  (forall f : Path,
      In f (discover_files fs folder_path)
      <-> (In f (fs_iterdir fs folder_path) /\ fs_is_file fs f = true)) /\
  List.length (discover_files fs folder_path)
  = List.length (filter (fun item => fs_is_file fs item) (fs_iterdir fs folder_path)).
Proof.
  unfold discover_files. split.
  - intros f. rewrite <- filter_In. split; intros Hin.
    + eapply Permutation_in; [apply Permutation_sym, sort_by_key_perm | exact Hin].
    + eapply Permutation_in; [apply sort_by_key_perm | exact Hin].
  - symmetry. apply Permutation_length, sort_by_key_perm.
Qed.




(** ** handle_name_conflict *)

Lemma conflict_loop_result (exists_ : Path -> bool) (parent : Path)
      (stem suffix : string) (fuel counter : nat) (result : Path) :
  conflict_loop exists_ parent stem suffix counter fuel = Some result ->
  exists k, counter <= k /\ result = parent // suffixed_name stem suffix k.
Proof.
  revert counter. induction fuel as [|fuel IH]; intros counter; cbn [conflict_loop].
  - discriminate.
  - destruct (exists_ (parent // suffixed_name stem suffix counter)); cbn [negb].
    + intros Hrun. destruct (IH _ Hrun) as (k & Hk & ->).
      exists k. split; [lia | reflexivity].
    + intros Heq. injection Heq as <-. exists counter. split; [lia | reflexivity].
Qed.

Lemma handle_name_conflict_cases (exists_ : Path -> bool) (fuel : nat)
      (target_path result : Path) :
  handle_name_conflict exists_ fuel target_path = Some result ->
  (exists_ target_path = false /\ result = target_path) \/
  (exists_ target_path = true /\
   exists k, 1 <= k /\ result = candidate target_path k).
Proof.
  unfold handle_name_conflict.
  destruct (exists_ target_path); cbn [negb].
  - intros Hrun. right. split; [reflexivity|].
    now apply conflict_loop_result in Hrun.
  - intros Heq. injection Heq as <-. now left.
Qed.

(** X6: the resolver is idempotent: the path it returns is free, so
    resolving it again returns it unchanged, whatever the number of rounds
    allowed. *)
Theorem handle_name_conflict_idempotent
        (exists_ : Path -> bool) (fuel fuel' : nat) (target_path result : Path) :
  handle_name_conflict exists_ fuel target_path = Some result ->
  handle_name_conflict exists_ fuel' result = Some result.
Proof.
  intros Hrun. apply handle_name_conflict_free in Hrun.
  unfold handle_name_conflict. now rewrite Hrun.
Qed.

(** [photo1_1.png], the answer for an existing [photo1.png], resolves to
    itself. *)
Lemma handle_name_conflict_twice :
  handle_name_conflict (exists_in [parse "photo1.png"]) 0 (parse "photo1_1.png")
  = Some (parse "photo1_1.png").
Proof.
  apply (handle_name_conflict_idempotent
           (exists_in [parse "photo1.png"]) 1 0 (parse "photo1.png")).
  reflexivity.
Defined.

Lemma append_assoc (a b c : string) : (a ++ b) ++ c = a ++ b ++ c.
Proof. induction a as [|x a IH]; cbn; [reflexivity | now rewrite IH]. Qed.

Lemma rfind_dot_split (nm : string) (i : nat) :
  PyStr.rfind_dot nm = Some i ->
  exists a b, nm = a ++ String "." b /\ String.length a = i /\
              PyStr.rfind_dot b = None.
Proof.
  revert i. induction nm as [|c nm IH]; intros i; cbn [PyStr.rfind_dot].
  - discriminate.
  - destruct (PyStr.rfind_dot nm) as [j|] eqn:Hj.
    + intros Heq. injection Heq as <-.
      destruct (IH j eq_refl) as (a & b & -> & Hlen & Hb).
      exists (String c a), b. cbn. now rewrite Hlen.
    + destruct (Ascii.eqb c ".") eqn:Hc; [|discriminate].
      intros Heq. injection Heq as <-. apply Ascii.eqb_eq in Hc. subst c.
      exists "", nm. repeat split. exact Hj.
Qed.

Lemma rfind_dot_append (a b : string) :
  PyStr.rfind_dot b = None ->
  PyStr.rfind_dot (a ++ String "." b) = Some (String.length a).
Proof.
  intros Hb. induction a as [|c a IH]; cbn [append PyStr.rfind_dot String.length].
  - now rewrite Hb.
  - now rewrite IH.
Qed.

Lemma substring_all (s : string) : substring 0 (String.length s) s = s.
Proof. induction s as [|c s IH]; cbn; [reflexivity | now rewrite IH]. Qed.

Lemma substring_append_l (a b : string) : substring 0 (String.length a) (a ++ b) = a.
Proof.
  induction a as [|c a IH]; cbn.
  - now destruct b.
  - now rewrite IH.
Qed.

Lemma substring_append_r (a b : string) :
  substring (String.length a) (String.length b) (a ++ b) = b.
Proof.
  induction a as [|c a IH]; cbn; [apply substring_all | exact IH].
Qed.

(** A name [a.b] with [a] and [b] non-empty and no dot in [b] has stem
    [a] and suffix [.b]. *)
Lemma stem_suffix_of_split (p : Path) (a b : string) :
  name p = a ++ String "." b ->
  a <> "" -> b <> "" -> PyStr.rfind_dot b = None ->
  stem p = a /\ suffix p = String "." b.
Proof.
  intros Hname Ha Hb Hdot. unfold stem, suffix, suffix_start.
  rewrite Hname, (rfind_dot_append a b Hdot).
  assert (Hlen : String.length (a ++ String "." b)
                 = String.length a + Datatypes.S (String.length b))
    by now rewrite length_append.
  assert (Hla : 0 < String.length a) by (destruct a; [congruence | cbn; lia]).
  assert (Hlb : 0 < String.length b) by (destruct b; [congruence | cbn; lia]).
  rewrite Hlen.
  replace (0 <? String.length a)%nat with true by (symmetry; apply Nat.ltb_lt; lia).
  replace (String.length a <? String.length a + Datatypes.S (String.length b) - 1)%nat
    with true by (symmetry; apply Nat.ltb_lt; lia).
  cbn [andb]. split.
  - apply substring_append_l.
  - replace (String.length a + Datatypes.S (String.length b) - String.length a)
      with (String.length (String "." b)) by (cbn; lia).
    apply substring_append_r.
Qed.

(** A non-empty suffix is a dot followed by dot-free text, after a
    non-empty stem. *)
Lemma suffix_nonempty_split (p : Path) :
  suffix p <> "" ->
  exists a b, name p = a ++ String "." b /\ a <> "" /\ b <> "" /\
              PyStr.rfind_dot b = None.
Proof.
  unfold suffix, suffix_start.
  destruct (PyStr.rfind_dot (name p)) as [i|] eqn:Hi; [|congruence].
  destruct ((0 <? i)%nat && (i <? String.length (name p) - 1)%nat) eqn:Hc; [|congruence].
  intros _. apply andb_true_iff in Hc as [H0 H1].
  apply Nat.ltb_lt in H0, H1.
  destruct (rfind_dot_split _ _ Hi) as (a & b & Hname & Hlen & Hb).
  exists a, b. rewrite Hname, length_append in H1. cbn in H1.
  repeat split; try assumption.
  - intros ->. cbn in Hlen. lia.
  - intros ->. cbn in H1. lia.
Qed.

(** X7: when the desired path exists, the path the resolver returns is a
    sibling of it: same directory, named [stem_k] plus the old suffix for
    some [k >= 1]; a non-empty extension is kept as the extension of the
    new name, whose stem is [stem_k]. *)
Theorem handle_name_conflict_keeps_extension
        (exists_ : Path -> bool) (fuel : nat) (target_path result : Path) :
  wf target_path ->
  exists_ target_path = true ->
  handle_name_conflict exists_ fuel target_path = Some result ->
  renamed_beside target_path result.
Proof.
  intros Hwf Hex Hrun.
  destruct (handle_name_conflict_cases _ _ _ _ Hrun)
    as [[Hfree _]|(_ & k & Hk & ->)]; [congruence|].
  assert (Hcomp : is_component
                    (suffixed_name (stem target_path) (suffix target_path) k) = true).
  { apply suffixed_name_component;
      [now apply stem_no_slash | now apply suffix_no_slash]. }
  assert (Hname : name (candidate target_path k)
                  = suffixed_name (stem target_path) (suffix target_path) k).
  { unfold candidate. now apply name_join_component. }
  exists k. split; [exact Hk|]. split; [exact Hname|].
  split; [now apply parent_candidate|].
  intros Hsuf.
  destruct (suffix_nonempty_split target_path Hsuf) as (a & b & Hnm & Ha & Hb & Hdot).
  destruct (stem_suffix_of_split target_path a b Hnm Ha Hb Hdot) as [Hstem Hsuffix].
  assert (Hname' : name (candidate target_path k)
                   = (a ++ "_" ++ PyStr.str k) ++ String "." b).
  { rewrite Hname. unfold suffixed_name. rewrite Hstem, Hsuffix.
    now rewrite !append_assoc. }
  assert (Hne : a ++ "_" ++ PyStr.str k <> "")
    by (destruct a; [congruence | discriminate]).
  destruct (stem_suffix_of_split (candidate target_path k)
                                 (a ++ "_" ++ PyStr.str k) b Hname' Hne Hb Hdot)
    as [Hs1 Hs2].
  rewrite Hs1, Hs2, Hstem, Hsuffix. split; reflexivity.
Qed.

(** With [photo1.png] taken, the answer is [photo1_1.png], still a
    [.png] in the same place. *)
Lemma handle_name_conflict_keeps_png :
  renamed_beside (parse "photo1.png") (parse "photo1_1.png").
Proof.
  apply (handle_name_conflict_keeps_extension
           (exists_in [parse "photo1.png"]) 1 (parse "photo1.png")).
  - apply wf_parse.
  - reflexivity.
  - reflexivity.
Defined.

(** ** generate_rename_plan on any file system *)

Section PlanInversion.

Context {S : Type} `{FileSystem S}.

Lemma plan_from_sources (fuel : nat) (fs : S) (folder_path : Path)
      (pattern : string) (files : list Path) (index : nat)
      (plan : list RenameOperation) :
  plan_from fuel fs folder_path pattern index files = Some plan ->
  map source plan = files /\
  Forall (fun op => status op = pending /\ error op = None) plan.
Proof.
  revert index plan. induction files as [|f files IH]; intros index plan; cbn [plan_from].
  - intros Heq. injection Heq as <-. split; [reflexivity | constructor].
  - destruct (handle_name_conflict (fs_exists fs) fuel
                (folder_path // new_name pattern index f)) as [t|]; [|discriminate].
    destruct (plan_from fuel fs folder_path pattern (Datatypes.S index) files)
      as [rest|] eqn:Hrest; [|discriminate].
    intros Heq. injection Heq as <-.
    destruct (IH _ _ Hrest) as [Hsrc Hall].
    split; [cbn; now rewrite Hsrc|].
    constructor; [split; reflexivity | exact Hall].
Qed.

(** Each operation of a returned plan holds the resolver's answer for the
    name numbered by its position. *)
Lemma plan_from_nth (fuel : nat) (fs : S) (folder_path : Path)
      (pattern : string) (files : list Path) (index : nat)
      (plan : list RenameOperation) :
  plan_from fuel fs folder_path pattern index files = Some plan ->
  forall i op,
    nth_error plan i = Some op ->
    handle_name_conflict (fs_exists fs) fuel
      (folder_path // new_name pattern (index + i) (source op))
    = Some (target op).
Proof.
  revert index plan. induction files as [|f files IH]; intros index plan; cbn [plan_from].
  - intros Heq. injection Heq as <-. intros [|i] op Hi; discriminate.
  - destruct (handle_name_conflict (fs_exists fs) fuel
                (folder_path // new_name pattern index f)) as [t|] eqn:Ht;
      [|discriminate].
    destruct (plan_from fuel fs folder_path pattern (Datatypes.S index) files)
      as [rest|] eqn:Hrest; [|discriminate].
    intros Heq. injection Heq as <-. intros [|i] op Hi; cbn in Hi.
    + injection Hi as <-. cbn. now rewrite Nat.add_0_r.
    + rewrite Nat.add_succ_r. now apply (IH _ _ Hrest).
Qed.

End PlanInversion.

(** X8: on any file system, a plan that [generate_rename_plan] returns
    has one pending operation per discovered file, in discovery order;
    every source is a regular file listed in the folder, and no target
    exists at the time the plan is made. *)
Theorem generate_rename_plan_sources_and_targets
        (S : Type) (FS : FileSystem S) (fuel : nat) (fs : S)
        (folder_path : Path) (pattern : string) (plan : list RenameOperation) :
  generate_rename_plan fuel fs folder_path pattern = Some plan ->
  map source plan = discover_files fs folder_path /\
  forall op, In op plan ->
    status op = pending /\ error op = None /\
    In (source op) (fs_iterdir fs folder_path) /\
    fs_is_file fs (source op) = true /\
    fs_exists fs (target op) = false.
Proof.
  unfold generate_rename_plan. intros Hplan.
  destruct (plan_from_sources _ _ _ _ _ _ _ Hplan) as [Hsrc Hall].
  split; [exact Hsrc|]. intros op Hin.
  rewrite Forall_forall in Hall. destruct (Hall op Hin) as [Hst Herr].
  destruct (plan_from_operations _ _ _ _ _ _ _ Hplan op Hin) as [Hin_src Hfree].
  unfold discover_files in Hin_src.
  apply (Permutation_in _ (Permutation_sym (sort_by_key_perm _ _))) in Hin_src.
  apply filter_In in Hin_src as [Hlisted Hfile].
  repeat split; assumption.
Qed.

(** The plan for [1.PNG] and [2.PNG]. *)
Lemma generate_rename_plan_first_plan_sources :
  map source PlanExamples.first_plan
  = discover_files Examples.two_pngs Examples.photos /\
  forall op, In op PlanExamples.first_plan ->
    status op = pending /\ error op = None /\
    In (source op) (fs_iterdir Examples.two_pngs Examples.photos) /\
    fs_is_file Examples.two_pngs (source op) = true /\
    fs_exists Examples.two_pngs (target op) = false.
Proof.
  apply (generate_rename_plan_sources_and_targets
           _ _ 5 Examples.two_pngs Examples.photos "photo{n}").
  reflexivity.
Defined.

(** X9: a folder that lists no regular file gives the empty plan, with
    no round of the resolver's loop needed, and executing the empty plan
    reports zero everywhere and leaves the file system as it is. *)
Theorem generate_rename_plan_no_files
        (S : Type) (FS : FileSystem S) (fuel : nat) (fs : S)
        (folder_path : Path) (pattern : string) :
  (forall item, In item (fs_iterdir fs folder_path) -> fs_is_file fs item = false) ->
  generate_rename_plan fuel fs folder_path pattern = Some [] /\
  execute_renames fs []
  = ({| total_files := 0; successful := 0; failed_ := 0; skipped_ := 0;
        errors := [] |}, [], fs).
Proof.
  intros Hnone. split; [|reflexivity].
  unfold generate_rename_plan, discover_files.
  assert (Hfilter : filter (fun item => fs_is_file fs item) (fs_iterdir fs folder_path) = []).
  { induction (fs_iterdir fs folder_path) as [|x l IH]; [reflexivity|].
    cbn [filter]. rewrite (Hnone x) by now left.
    apply IH. intros item Hin. apply Hnone. now right. }
  now rewrite Hfilter.
Qed.

(** A folder holding one subdirectory only. *)
Lemma generate_rename_plan_only_subdirectory :
  generate_rename_plan 0
    [(parse "/", MemFS.Directory); (Examples.photos, MemFS.Directory);
     (Examples.photos // "archive", MemFS.Directory)]
    Examples.photos "photo{n}" = Some [].
Proof.
  apply generate_rename_plan_no_files.
  intros item [<-|[]]. reflexivity.
Defined.

(** X10: with a pattern that does not contain the token, two files whose
    extensions normalize alike are planned onto the same target: the
    resolver sees the same name twice and, nothing being renamed while the
    plan is made, answers alike. *)
Theorem generate_rename_plan_without_token_shares_target
        (S : Type) (FS : FileSystem S) (fuel : nat) (fs : S)
        (folder_path : Path) (pattern : string) (plan : list RenameOperation)
        (i j : nat) (op_i op_j : RenameOperation) :
  occurs "{n}" pattern = false ->
  generate_rename_plan fuel fs folder_path pattern = Some plan ->
  nth_error plan i = Some op_i ->
  nth_error plan j = Some op_j ->
  normalize_extension (suffix (source op_i))
  = normalize_extension (suffix (source op_j)) ->
  target op_i = target op_j.
Proof.
  unfold generate_rename_plan. intros Hocc Hplan Hi Hj Hext.
  pose proof (plan_from_nth _ _ _ _ _ _ _ Hplan i op_i Hi) as Hti.
  pose proof (plan_from_nth _ _ _ _ _ _ _ Hplan j op_j Hj) as Htj.
  rewrite new_name_without_token in Hti, Htj by assumption.
  rewrite Hext in Hti. rewrite Hti in Htj. now injection Htj.
Qed.

(** [1.PNG] and [2.PNG] under the pattern [photo]. *)
Lemma generate_rename_plan_photo_shares_target :
  target {| source := Examples.photos // "1.PNG";
            target := Examples.photos // "photo.png";
            status := pending; error := None |}
  = target {| source := Examples.photos // "2.PNG";
              target := Examples.photos // "photo.png";
              status := pending; error := None |}.
Proof.
  apply (generate_rename_plan_without_token_shares_target
           _ _ 5 Examples.two_pngs Examples.photos "photo"
           PlanExamples.clashing_plan 0 1);
    reflexivity.
Defined.

Section NeverSkips.

Context {S : Type} `{FileSystem S}.

Lemma run_skips_nothing (l : list RenameOperation) (st : @ExecState S) :
  (forall op, In op l -> path_eqb (source op) (target op) = false) ->
  skipped_count (fold_left execute_one l st) = skipped_count st.
Proof.
  revert st. induction l as [|op l IH]; intros st Hne; [reflexivity|].
  cbn [fold_left]. rewrite IH by (intros op' Hin; apply Hne; now right).
  unfold execute_one. rewrite (Hne op) by now left.
  destruct (negb (fs_exists (st_fs st) (source op))); [reflexivity|].
  destruct (fs_rename (st_fs st) (source op) (target op)) as [[m|m|m]|fs'];
    reflexivity.
Qed.

End NeverSkips.

(** X11: plan and execute on the same directory never skip: every planned
    source exists and no planned target does, so no operation has its
    source as target and the executor's skip branch is not taken. *)
Theorem planned_execution_skips_nothing
        (fs : MemFS.memfs) (folder_path : Path) (pattern : string) (fuel : nat)
        (plan : list RenameOperation) :
  generate_rename_plan fuel fs folder_path pattern = Some plan ->
  let '(result, ops, _) := execute_renames fs plan in
  skipped_ result = 0 /\ count_status skipped ops = 0.
Proof.
  intros Hplan.
  assert (Hne : forall op, In op plan -> path_eqb (source op) (target op) = false).
  { intros op Hin.
    now destruct (planned_source_differs_from_target _ _ _ _ _ Hplan op Hin)
      as (_ & _ & Hneq). }
  destruct plan as [|op0 plan0] eqn:Hp; [split; reflexivity|].
  rewrite <- Hp in *. rewrite execute_renames_unfold by (rewrite Hp; discriminate).
  cbn [skipped_].
  assert (Hskip : skipped_count (run_operations fs plan) = 0).
  { unfold run_operations. now rewrite run_skips_nothing. }
  split; [exact Hskip|].
  assert (Ht : tally_ok (run_operations fs plan)).
  { apply run_tally. unfold tally_ok. cbn. repeat split; reflexivity. }
  destruct Ht as (_ & _ & Hk & _). now rewrite <- Hk.
Qed.

(** The second run on [photo1.png], [photo2.png]. *)
Lemma planned_execution_second_run :
  let '(result, ops, _) :=
    execute_renames Examples.renamed_pngs PlanExamples.second_plan in
  skipped_ result = 0 /\ count_status skipped ops = 0.
Proof.
  apply (planned_execution_skips_nothing
           Examples.renamed_pngs Examples.photos "photo{n}" 5).
  reflexivity.
Defined.

(** ** execute_renames on any file system *)

Lemma append_nil_r (s : string) : s ++ "" = s.
Proof. induction s as [|c s IH]; cbn; [reflexivity | now rewrite IH]. Qed.

Section ExecutorMore.

Context {S : Type} `{FileSystem S}.

(** The result in terms of the loop, the empty plan included. *)
Lemma execute_renames_as_run (fs : S) (plan : list RenameOperation) :
  execute_renames fs plan
  = ({| total_files := List.length plan;
        successful := successful_count (run_operations fs plan);
        failed_ := failed_count (run_operations fs plan);
        skipped_ := skipped_count (run_operations fs plan);
        errors := error_messages (run_operations fs plan) |},
     processed (run_operations fs plan), st_fs (run_operations fs plan)).
Proof. destruct plan; reflexivity. Qed.

Lemma execute_one_same (st : @ExecState S) (op : RenameOperation) :
  exists op',
    processed (execute_one st op) = (processed st ++ [op'])%list /\
    same_operation op op'.
Proof.
  unfold execute_one, same_operation.
  destruct (negb (fs_exists (st_fs st) (source op))).
  { eexists. split; [reflexivity|]. cbn. repeat split. congruence. }
  destruct (path_eqb (source op) (target op)).
  { eexists. split; [reflexivity|]. cbn. repeat split. }
  destruct (fs_rename (st_fs st) (source op) (target op)) as [[m|m|m]|fs'];
    (eexists; split; [reflexivity|]; cbn; repeat split; congruence).
Qed.

Lemma run_same (l : list RenameOperation) (st : @ExecState S) :
  exists done,
    processed (fold_left execute_one l st) = (processed st ++ done)%list /\
    Forall2 same_operation l done.
Proof.
  revert st. induction l as [|op l IH]; intros st; cbn [fold_left].
  - exists []. split; [now rewrite app_nil_r | constructor].
  - destruct (IH (execute_one st op)) as (done & Hdone & Hall).
    destruct (execute_one_same st op) as (op' & Hop & Hsame).
    exists (op' :: done). rewrite Hdone, Hop, <- app_assoc.
    split; [reflexivity | now constructor].
Qed.

(** The success counter only grows, and the file system changes only
    when it does. *)
Lemma run_success_or_same_fs (l : list RenameOperation) (st : @ExecState S) :
  successful_count st <= successful_count (fold_left execute_one l st) /\
  (successful_count (fold_left execute_one l st) = successful_count st ->
   st_fs (fold_left execute_one l st) = st_fs st).
Proof.
  revert st. induction l as [|op l IH]; intros st; cbn [fold_left].
  - split; [lia | reflexivity].
  - destruct (IH (execute_one st op)) as [Hle Hsame].
    assert (Hstep : (successful_count (execute_one st op) = successful_count st /\
                     st_fs (execute_one st op) = st_fs st) \/
                    successful_count (execute_one st op) = successful_count st + 1).
    { unfold execute_one.
      destruct (negb (fs_exists (st_fs st) (source op))); [now left|].
      destruct (path_eqb (source op) (target op)); [now left|].
      destruct (fs_rename (st_fs st) (source op) (target op)) as [[m|m|m]|fs'];
        [now left | now left | now left | now right]. }
    destruct Hstep as [[Hc Hf]|Hc].
    + rewrite Hc in *. split; [exact Hle|].
      intros Heq. rewrite (Hsame Heq). exact Hf.
    + split; [lia|]. intros Heq. lia.
Qed.

(** Running from a state with counters is running from a fresh state,
    the old counters added. *)
Lemma run_shift (l : list RenameOperation) (st : @ExecState S) :
  let st' := fold_left execute_one l st in
  let st0 := fold_left execute_one l (initial_state (st_fs st)) in
  st_fs st' = st_fs st0 /\
  successful_count st' = successful_count st + successful_count st0 /\
  failed_count st' = failed_count st + failed_count st0 /\
  skipped_count st' = skipped_count st + skipped_count st0 /\
  error_messages st' = (error_messages st ++ error_messages st0)%list /\
  processed st' = (processed st ++ processed st0)%list.
Proof.
  cbv zeta.
  assert (Hgen : forall (l : list RenameOperation) (st st0 : @ExecState S),
             st_fs st = st_fs st0 ->
             let st' := fold_left execute_one l st in
             let st0' := fold_left execute_one l st0 in
             st_fs st' = st_fs st0' /\
             successful_count st' + successful_count st0
             = successful_count st + successful_count st0' /\
             failed_count st' + failed_count st0
             = failed_count st + failed_count st0' /\
             skipped_count st' + skipped_count st0
             = skipped_count st + skipped_count st0' /\
             (forall base base0 tail,
                 error_messages st = (base ++ tail)%list ->
                 error_messages st0 = (base0 ++ tail)%list ->
                 exists tail',
                   error_messages st' = (base ++ tail')%list /\
                   error_messages st0' = (base0 ++ tail')%list) /\
             (forall base base0 tail,
                 processed st = (base ++ tail)%list ->
                 processed st0 = (base0 ++ tail)%list ->
                 exists tail',
                   processed st' = (base ++ tail')%list /\
                   processed st0' = (base0 ++ tail')%list)).
  { clear l st. induction l as [|op l IH]; intros st st0 Hfs; cbv zeta; cbn [fold_left].
    - repeat split; try lia; try assumption.
      + intros base base0 tail He He0. now exists tail.
      + intros base base0 tail Hp Hp0. now exists tail.
    - assert (Hstep :
                st_fs (execute_one st op) = st_fs (execute_one st0 op) /\
                successful_count (execute_one st op) + successful_count st0
                = successful_count st + successful_count (execute_one st0 op) /\
                failed_count (execute_one st op) + failed_count st0
                = failed_count st + failed_count (execute_one st0 op) /\
                skipped_count (execute_one st op) + skipped_count st0
                = skipped_count st + skipped_count (execute_one st0 op) /\
                (exists more,
                    error_messages (execute_one st op)
                    = (error_messages st ++ more)%list /\
                    error_messages (execute_one st0 op)
                    = (error_messages st0 ++ more)%list) /\
                (exists more,
                    processed (execute_one st op) = (processed st ++ more)%list /\
                    processed (execute_one st0 op) = (processed st0 ++ more)%list)).
      { unfold execute_one. rewrite <- Hfs.
        destruct (negb (fs_exists (st_fs st) (source op))).
        { cbn. repeat split; try lia; try assumption; eexists; split; reflexivity. }
        destruct (path_eqb (source op) (target op)).
        { cbn. repeat split; try lia; try assumption.
          - exists []. now rewrite !app_nil_r.
          - eexists; split; reflexivity. }
        destruct (fs_rename (st_fs st) (source op) (target op)) as [[m|m|m]|fs'];
          cbn; repeat split; try lia; try assumption;
          try (eexists; split; reflexivity).
        exists []. now rewrite !app_nil_r. }
      destruct Hstep as (Hf & Hs & Hfa & Hk & (me & He & He0) & (mp & Hp & Hp0)).
      destruct (IH (execute_one st op) (execute_one st0 op) Hf)
        as (Hf' & Hs' & Hfa' & Hk' & Herr & Hproc).
      repeat split; try lia; try assumption.
      + intros base base0 tail Hb Hb0.
        apply (Herr base base0 (tail ++ me)%list).
        * now rewrite He, Hb, app_assoc.
        * now rewrite He0, Hb0, app_assoc.
      + intros base base0 tail Hb Hb0.
        apply (Hproc base base0 (tail ++ mp)%list).
        * now rewrite Hp, Hb, app_assoc.
        * now rewrite Hp0, Hb0, app_assoc. }
  destruct (Hgen l st (initial_state (st_fs st)) eq_refl)
    as (Hf & Hs & Hfa & Hk & Herr & Hproc).
  cbn [initial_state successful_count failed_count skipped_count] in *.
  destruct (Herr (error_messages st) [] []) as (te & Hte & Hte0);
    [now rewrite app_nil_r | reflexivity |].
  destruct (Hproc (processed st) [] []) as (tp & Htp & Htp0);
    [now rewrite app_nil_r | reflexivity |].
  cbn in Hte0, Htp0.
  repeat split; try lia; try assumption.
  - now rewrite Hte, Hte0.
  - now rewrite Htp, Htp0.
Qed.

Lemma run_all_missing (l : list RenameOperation) (st : @ExecState S) :
  (forall op, In op l -> fs_exists (st_fs st) (source op) = false) ->
  fold_left execute_one l st
  = {| st_fs := st_fs st;
       successful_count := successful_count st;
       failed_count := failed_count st + List.length l;
       skipped_count := skipped_count st;
       error_messages := (error_messages st ++ map not_found_message l)%list;
       processed := (processed st ++ map marked_not_found l)%list |}.
Proof.
  revert st. induction l as [|op l IH]; intros st Hmiss; cbn [fold_left].
  - destruct st. cbn. now rewrite Nat.add_0_r, !app_nil_r.
  - assert (Hstep : execute_one st op = mark_failed st op (not_found_message op)).
    { unfold execute_one. now rewrite (Hmiss op) by now left. }
    rewrite Hstep, IH.
    + unfold mark_failed. cbn. f_equal; try lia.
      * now rewrite <- app_assoc.
      * now rewrite <- app_assoc.
    + intros op' Hin. cbn. apply Hmiss. now right.
Qed.

Lemma run_all_same (l : list RenameOperation) (st : @ExecState S) :
  (forall op, In op l ->
              source op = target op /\ fs_exists (st_fs st) (source op) = true) ->
  fold_left execute_one l st
  = {| st_fs := st_fs st;
       successful_count := successful_count st;
       failed_count := failed_count st;
       skipped_count := skipped_count st + List.length l;
       error_messages := error_messages st;
       processed := (processed st ++ map marked_skipped l)%list |}.
Proof.
  revert st. induction l as [|op l IH]; intros st Hsame; cbn [fold_left].
  - destruct st. cbn. now rewrite Nat.add_0_r, !app_nil_r.
  - destruct (Hsame op (or_introl eq_refl)) as [Heq Hex].
    assert (Hstep : execute_one st op
                    = {| st_fs := st_fs st;
                         successful_count := successful_count st;
                         failed_count := failed_count st;
                         skipped_count := skipped_count st + 1;
                         error_messages := error_messages st;
                         processed := (processed st ++ [marked_skipped op])%list |}).
    { unfold execute_one. rewrite Hex. cbn [negb].
      now rewrite (proj2 (path_eqb_eq _ _) Heq). }
    rewrite Hstep, IH.
    + cbn. f_equal; try lia. now rewrite <- app_assoc.
    + intros op' Hin. cbn. apply Hsame. now right.
Qed.

Lemma execute_one_error_names (st : @ExecState S) (op : RenameOperation) (e : string) :
  In e (error_messages (execute_one st op)) ->
  In e (error_messages st) \/ names_source op e.
Proof.
  unfold execute_one, mark_failed, names_source.
  destruct (negb (fs_exists (st_fs st) (source op))).
  { cbn. intros Hin. apply in_app_or in Hin as [Hin|[<-|[]]]; [now left|].
    right. exists "Source file not found: ", "". now rewrite append_nil_r. }
  destruct (path_eqb (source op) (target op)); [now left|].
  destruct (fs_rename (st_fs st) (source op) (target op)) as [[m|m|m]|fs'];
    cbn; intros Hin; try (now left);
    (apply in_app_or in Hin as [Hin|[<-|[]]]; [now left|]; right).
  - now exists "Permission denied for ", (": " ++ m).
  - now exists "Failed to rename ", (": " ++ m).
  - now exists "Unexpected error renaming ", (": " ++ m).
Qed.

Lemma run_error_names (l : list RenameOperation) (st : @ExecState S) (e : string) :
  In e (error_messages (fold_left execute_one l st)) ->
  In e (error_messages st) \/ exists op, In op l /\ names_source op e.
Proof.
  revert st. induction l as [|op l IH]; intros st; cbn [fold_left]; [now left|].
  intros Hin. destruct (IH _ Hin) as [Hst|(op' & Hop & Hn)].
  - destruct (execute_one_error_names st op e Hst) as [Hold|Hn]; [now left|].
    right. exists op. split; [now left | exact Hn].
  - right. exists op'. split; [now right | exact Hn].
Qed.

End ExecutorMore.

(** X12: the executor returns the operations of the plan, one for one and
    in the same order, with source and target untouched; the error field
    is rewritten only on operations that end failed. *)
Theorem execute_renames_keeps_operations
        (S : Type) (FS : FileSystem S) (fs : S) (plan : list RenameOperation) :
  let '(_, ops, _) := execute_renames fs plan in
  Forall2 same_operation plan ops /\
  map source ops = map source plan /\
  map target ops = map target plan.
Proof.
  rewrite execute_renames_as_run.
  destruct (run_same plan (initial_state fs)) as (done & Hdone & Hall).
  unfold run_operations. rewrite Hdone. simpl.
  split; [exact Hall|].
  clear Hdone. induction Hall as [|op op' l l' (Hs & Ht & _) _ [IHs IHt]];
    [split; reflexivity|].
  cbn [map]. now rewrite Hs, Ht, IHs, IHt.
Qed.

(** X13: the file system changes only through a rename that succeeds: if
    the result counts no successful operation, the executor leaves the file
    system exactly as it found it. *)
Theorem execute_renames_no_success_no_change
        (S : Type) (FS : FileSystem S) (fs : S) (plan : list RenameOperation) :
  successful (fst (fst (execute_renames fs plan))) = 0 ->
  snd (execute_renames fs plan) = fs.
Proof.
  rewrite execute_renames_as_run. cbn [fst snd successful].
  unfold run_operations. intros Hzero.
  destruct (run_success_or_same_fs plan (initial_state fs)) as [_ Hsame].
  now apply Hsame.
Qed.

(** Nothing of [gone_plan] succeeds, and the directory stays as it was. *)
Lemma execute_renames_gone_plan_no_change :
  snd (execute_renames Examples.two_pngs ExecExamples.gone_plan) = Examples.two_pngs.
Proof.
  apply execute_renames_no_success_no_change. reflexivity.
Defined.

(** X14: executing a plan made of two parts is executing the first part
    and then the second on the file system the first leaves: the counts add
    up, the errors and the processed operations follow one another. *)
Theorem execute_renames_app
        (S : Type) (FS : FileSystem S) (fs : S) (plan1 plan2 : list RenameOperation) :
  let '(result1, ops1, fs1) := execute_renames fs plan1 in
  let '(result2, ops2, fs2) := execute_renames fs1 plan2 in
  execute_renames fs (plan1 ++ plan2)
  = (add_results result1 result2, (ops1 ++ ops2)%list, fs2).
Proof.
  rewrite !execute_renames_as_run.
  unfold run_operations. rewrite fold_left_app.
  set (st1 := fold_left execute_one plan1 (initial_state fs)).
  destruct (run_shift plan2 st1) as (Hf & Hs & Hfa & Hk & He & Hp).
  unfold add_results. cbn [total_files successful failed_ skipped_ errors].
  rewrite Hf, Hs, Hfa, Hk, He, Hp, length_app. reflexivity.
Qed.

(** X15: when none of the sources exists, every operation is marked
    failed with its own "Source file not found" message, the result counts
    them all as failed and lists the messages in plan order, and the file
    system is left as it was. *)
Theorem execute_renames_all_sources_missing
        (S : Type) (FS : FileSystem S) (fs : S) (plan : list RenameOperation) :
  (forall op, In op plan -> fs_exists fs (source op) = false) ->
  execute_renames fs plan
  = ({| total_files := List.length plan; successful := 0;
        failed_ := List.length plan; skipped_ := 0;
        errors := map not_found_message plan |},
     map marked_not_found plan, fs).
Proof.
  intros Hmiss. rewrite execute_renames_as_run. unfold run_operations.
  rewrite run_all_missing by exact Hmiss. reflexivity.
Qed.

(** Both sources of [gone_plan] are missing. *)
Lemma execute_renames_gone_plan :
  execute_renames Examples.two_pngs ExecExamples.gone_plan
  = ({| total_files := 2; successful := 0; failed_ := 2; skipped_ := 0;
        errors := ["Source file not found: a.png";
                   "Source file not found: b.png"] |},
     map marked_not_found ExecExamples.gone_plan, Examples.two_pngs).
Proof.
  rewrite (execute_renames_all_sources_missing _ _ Examples.two_pngs ExecExamples.gone_plan).
  - reflexivity.
  - intros op [<-|[<-|[]]]; reflexivity.
Defined.

(** X16: a plan that renames every file to itself, all of them existing,
    is a no-op: every operation is marked skipped, nothing fails, no error
    is recorded and the file system is left as it was. *)
Theorem execute_renames_all_same
        (S : Type) (FS : FileSystem S) (fs : S) (plan : list RenameOperation) :
  (forall op, In op plan ->
              source op = target op /\ fs_exists fs (source op) = true) ->
  execute_renames fs plan
  = ({| total_files := List.length plan; successful := 0;
        failed_ := 0; skipped_ := List.length plan; errors := [] |},
     map marked_skipped plan, fs).
Proof.
  intros Hsame. rewrite execute_renames_as_run. unfold run_operations.
  rewrite run_all_same by exact Hsame. reflexivity.
Qed.

(** [1.PNG] and [2.PNG] renamed to themselves. *)
Lemma execute_renames_same_plan :
  execute_renames Examples.two_pngs ExecExamples.same_plan
  = ({| total_files := 2; successful := 0; failed_ := 0; skipped_ := 2;
        errors := [] |},
     map marked_skipped ExecExamples.same_plan, Examples.two_pngs).
Proof.
  rewrite (execute_renames_all_same _ _ Examples.two_pngs ExecExamples.same_plan).
  - reflexivity.
  - intros op [<-|[<-|[]]]; split; reflexivity.
Defined.

(** X17: every error string of the result names a file of the plan: it
    contains the file name of the source of one of the operations. *)
Theorem execute_renames_errors_name_sources
        (S : Type) (FS : FileSystem S) (fs : S) (plan : list RenameOperation)
        (e : string) :
  In e (errors (fst (fst (execute_renames fs plan)))) ->
  exists op, In op plan /\ names_source op e.
Proof.
  rewrite execute_renames_as_run. cbn [fst errors]. unfold run_operations.
  intros Hin. destruct (run_error_names plan (initial_state fs) e Hin) as [[]|Hop].
  exact Hop.
Qed.

(** The one error of [mixed_plan] names [gone.png]. *)
Lemma execute_renames_mixed_plan_error :
  exists op, In op Examples.mixed_plan /\
             names_source op "Source file not found: gone.png".
Proof.
  apply (execute_renames_errors_name_sources _ _ Examples.two_pngs).
  cbn. now left.
Defined.

(** ** run *)

(** X18: [run] fails fast. If the folder does not exist or is not a
    directory, or listing it raises, the run prints its error, ends with
    "Process aborted." and has renamed nothing; if the folder lists no
    regular file the run ends with "Process completed - nothing to
    rename.", again with the file system untouched. No planning round is
    needed in either case. *)
Theorem run_stops_before_any_rename
        (S : Type) (FS : FileSystem S) (FSL : FileSystemListing S)
        (fuel : nat) (fs : S) (folder_path : Path) (pattern : string) :
  (validate_folder fs folder_path = false \/
   fs_listing_error fs folder_path <> None ->
   stops_early fuel fs folder_path pattern "Process aborted.") /\
  (validate_folder fs folder_path = true ->
   fs_listing_error fs folder_path = None ->
   discover_files fs folder_path = [] ->
   stops_early fuel fs folder_path pattern "Process completed - nothing to rename.").
Proof.
  unfold stops_early, run. split.
  - intros Hbad.
    destruct (validate_folder fs folder_path) eqn:Hv; cbn [negb].
    + destruct Hbad as [Hbad|Hbad]; [discriminate|].
      destruct (fs_listing_error fs folder_path) as [[m|m|m]|]; [| | |congruence];
        (eexists; split; [reflexivity|]; reflexivity).
    + eexists; split; [reflexivity|]; reflexivity.
  - intros Hv Hl Hnone. rewrite Hv, Hl, Hnone. cbn [negb].
    eexists; split; [reflexivity|]; reflexivity.
Qed.

(** A folder that does not exist. *)
Lemma run_missing_folder :
  stops_early 0 Examples.two_pngs (parse "/nowhere") "photo{n}" "Process aborted.".
Proof.
  apply (proj1 (run_stops_before_any_rename _ _ _ 0 Examples.two_pngs
                  (parse "/nowhere") "photo{n}")).
  left. reflexivity.
Defined.

Lemma memfs_plan_returns (fs : MemFS.memfs) (folder pattern : string) (fuel : nat) :
  List.length fs < fuel ->
  exists plan,
    generate_rename_plan fuel fs (parse folder) pattern = Some plan /\
    List.length plan = List.length (discover_files fs (parse folder)).
Proof.
  intros Hfuel.
  destruct (plan_from_assigns fuel fs (parse folder) pattern) with
      (files := discover_files fs (parse folder)) (index := 1)
    as (plan & Hplan & Hlen & _).
  { intros t Ht. destruct (memfs_resolver_returns fs fuel t Ht Hfuel) as (r & Hr & _).
    now exists r. }
  { apply wf_parse. }
  exists plan. split; [exact Hplan | exact Hlen].
Qed.

(** X19: on a finite file system the whole run returns once the planning
    loop is allowed more rounds than there are existing paths; it leaves
    the file system that executing the generated plan leaves when the
    folder is valid, and the file system it found otherwise. *)
Theorem run_returns
        (fs : MemFS.memfs) (folder pattern : string) (fuel : nat) :
  List.length fs < fuel ->
  exists out plan,
    generate_rename_plan fuel fs (parse folder) pattern = Some plan /\
    run fuel fs (parse folder) pattern
    = Some (out, if validate_folder fs (parse folder)
                 then snd (execute_renames fs plan) else fs).
Proof.
  intros Hfuel.
  destruct (memfs_plan_returns fs folder pattern fuel Hfuel) as (plan & Hplan & Hlen).
  unfold run.
  destruct (validate_folder fs (parse folder)) eqn:Hv; cbn [negb].
  2:{ eexists. exists plan. split; [exact Hplan | reflexivity]. }
  assert (Hl : fs_listing_error fs (parse folder) = None).
  { unfold validate_folder in Hv. apply andb_true_iff in Hv as [_ Hd].
    cbn in Hd |- *. unfold mem_is_dir in Hd. unfold mem_listing_error.
    destruct (MemFS.lookup_kind fs (parse folder)) as [[|]|];
      [discriminate | reflexivity | discriminate]. }
  rewrite Hl.
  destruct (discover_files fs (parse folder)) as [|f files] eqn:Hfiles.
  - destruct plan; [|discriminate Hlen].
    eexists. exists []. split; [exact Hplan | reflexivity].
  - rewrite Hplan.
    destruct (execute_renames fs plan) as [[result ops] fs'] eqn:He.
    eexists. exists plan. split; [reflexivity|].
    rewrite He. reflexivity.
Qed.

(** The run on the directory of [1.PNG] and [2.PNG]. *)
Lemma run_two_pngs :
  exists out plan,
    generate_rename_plan 5 Examples.two_pngs (parse "/photos") "photo{n}" = Some plan /\
    run 5 Examples.two_pngs (parse "/photos") "photo{n}"
    = Some (out, if validate_folder Examples.two_pngs (parse "/photos")
                 then snd (execute_renames Examples.two_pngs plan)
                 else Examples.two_pngs).
Proof.
  apply run_returns. cbn. lia.
Defined.

(** X20: a run that finds files reports one and the same number
    throughout: the number of regular files discovered is the number of
    operations planned, previewed and processed, and the run leaves the
    file system that executing the plan leaves. *)
Theorem run_reports_every_file
        (S : Type) (FS : FileSystem S) (FSL : FileSystemListing S)
        (fuel : nat) (fs : S) (folder_path : Path) (pattern : string)
        (plan : list RenameOperation) :
  validate_folder fs folder_path = true ->
  fs_listing_error fs folder_path = None ->
  discover_files fs folder_path <> [] ->
  generate_rename_plan fuel fs folder_path pattern = Some plan ->
  reports_count fuel fs folder_path pattern plan
                (List.length (discover_files fs folder_path)).
Proof.
  intros Hv Hl Hfiles Hplan.
  assert (Hlen : List.length plan = List.length (discover_files fs folder_path)).
  { unfold generate_rename_plan in Hplan.
    destruct (plan_from_sources _ _ _ _ _ _ _ Hplan) as [Hsrc _].
    now rewrite <- Hsrc, length_map. }
  assert (Hne : plan <> []).
  { intros ->. destruct (discover_files fs folder_path); [congruence | discriminate]. }
  unfold reports_count, run. rewrite Hv, Hl. cbn [negb].
  destruct (discover_files fs folder_path) as [|f files] eqn:Hd; [congruence|].
  rewrite Hplan, execute_renames_as_run, Hlen.
  eexists. split; [reflexivity|].
  unfold preview_changes, report. cbn [total_files].
  destruct plan as [|op plan]; [congruence|]. rewrite Hlen.
  repeat split; rewrite ?in_app_iff; cbn [In]; auto 12.
Qed.

(** The run on [1.PNG] and [2.PNG] says 2 four times. *)
Lemma run_reports_two_pngs :
  reports_count 5 Examples.two_pngs Examples.photos "photo{n}"
                PlanExamples.first_plan 2.
Proof.
  change 2 with (List.length (discover_files Examples.two_pngs Examples.photos)).
  apply (run_reports_every_file _ _ _ 5 Examples.two_pngs Examples.photos "photo{n}"
                                PlanExamples.first_plan);
    [reflexivity | reflexivity | discriminate | reflexivity].
Defined.

(* ===================================================================== *)
(** * Letters and digits: the two text functions on every string *)
(* ===================================================================== *)

(** ** The database on ASCII satisfies what is asked of it *)

Lemma ascii_lowercase_on_ascii : Unicode.lower_on_ascii Unicode.ascii_lowercase.
Proof. intros s _. reflexivity. Qed.

Lemma ascii_lower_not_dot (c : N) :
  c <> Unicode.dot -> (Unicode.ascii_lower c =? Unicode.dot)%N = false.
Proof.
  unfold Unicode.ascii_lower, Unicode.dot. intros Hc. apply N.eqb_neq.
  destruct ((65 <=? c)%N && (c <=? 90)%N) eqn:E; [|exact Hc].
  apply andb_true_iff in E as [E1 _]. apply N.leb_le in E1. lia.
Qed.

Lemma ascii_lowercase_keeps_leading_dot :
  Unicode.lower_keeps_leading_dot Unicode.ascii_lowercase.
Proof.
  split; [reflexivity|]. split; [reflexivity|].
  intros c s Hc. cbn. now apply ascii_lower_not_dot.
Qed.


(** ** normalize_extension *)

Section LowerFacts.

Variable lower : Unicode.str -> Unicode.str.

Lemma startswith_dot_lower_any (s : Unicode.str) :
  Unicode.lower_keeps_leading_dot lower ->
  Unicode.startswith_dot (lower s) = Unicode.startswith_dot s.
Proof.
  intros (H0 & H1 & H2). destruct s as [|c s].
  - now rewrite H0.
  - destruct (N.eq_dec c Unicode.dot) as [->|Hne].
    + now rewrite H1.
    + rewrite H2 by assumption. cbn. symmetry. now apply N.eqb_neq.
Qed.

(** The dot is put in front of the lowered string, or was there before. *)
Lemma normalize_extension_by_lower (ext : Unicode.str) :
  Unicode.lower_keeps_leading_dot lower ->
  Unicode.normalize_extension lower ext
  = if Unicode.startswith_dot ext then lower ext else Unicode.dot :: lower ext.
Proof.
  intros (H0 & H1 & H2). unfold Unicode.normalize_extension.
  destruct (Unicode.startswith_dot ext); cbn [negb]; [reflexivity | apply H1].
Qed.

Lemma normalize_extension_dots (ext : Unicode.str) :
  Unicode.lower_keeps_leading_dot lower ->
  Unicode.startswith_dot (Unicode.normalize_extension lower ext) = true /\
  Unicode.starts_with_exactly_one_dot (Unicode.normalize_extension lower ext)
  = negb (Unicode.starts_with_two_dots ext).
Proof.
  intros Hl. rewrite normalize_extension_by_lower by assumption.
  pose proof Hl as (H0 & H1 & H2).
  destruct ext as [|c s].
  - cbn. rewrite H0. split; reflexivity.
  - cbn [Unicode.startswith_dot Unicode.starts_with_two_dots].
    destruct (c =? Unicode.dot)%N eqn:Hc.
    + apply N.eqb_eq in Hc. subst c. rewrite H1.
      cbn. rewrite startswith_dot_lower_any by assumption. split; reflexivity.
    + cbn. rewrite startswith_dot_lower_any by assumption.
      cbn. rewrite Hc. split; reflexivity.
Qed.

Lemma is_ascii_normalize_argument (ext : Unicode.str) :
  Unicode.is_ascii ext = true ->
  Unicode.is_ascii
    (if negb (Unicode.startswith_dot ext) then Unicode.dot :: ext else ext) = true.
Proof.
  intros Hext. destruct (negb (Unicode.startswith_dot ext)); [|exact Hext].
  cbn. exact Hext.
Qed.

Lemma normalize_extension_ascii_lowercase (ext : Unicode.str) :
  Unicode.lower_on_ascii lower ->
  Unicode.is_ascii ext = true ->
  Unicode.normalize_extension lower ext
  = Unicode.ascii_lowercase
      (if negb (Unicode.startswith_dot ext) then Unicode.dot :: ext else ext).
Proof.
  intros Hl Hext. unfold Unicode.normalize_extension.
  apply Hl. now apply is_ascii_normalize_argument.
Qed.

End LowerFacts.

Lemma ascii_lower_not_upper (c : N) :
  (c <? 128)%N = true -> Unicode.ascii_not_upper (Unicode.ascii_lower c) = true.
Proof.
  unfold Unicode.ascii_not_upper, Unicode.ascii_lower. intros Hc.
  apply N.ltb_lt in Hc.
  destruct ((65 <=? c)%N && (c <=? 90)%N) eqn:E.
  - apply andb_true_iff in E as [E1 E2]. apply N.leb_le in E1, E2.
    apply andb_true_iff. split; [apply N.ltb_lt; lia|].
    apply negb_true_iff, andb_false_iff. right. apply N.leb_gt. lia.
  - rewrite E. cbn. rewrite andb_true_r. apply N.ltb_lt. lia.
Qed.

Lemma ascii_lower_idempotent (c : N) :
  Unicode.ascii_lower (Unicode.ascii_lower c) = Unicode.ascii_lower c.
Proof.
  unfold Unicode.ascii_lower.
  destruct ((65 <=? c)%N && (c <=? 90)%N) eqn:E; [|now rewrite E].
  apply andb_true_iff in E as [E1 E2]. apply N.leb_le in E1, E2.
  replace ((65 <=? c + 32)%N && (c + 32 <=? 90)%N) with false; [reflexivity|].
  symmetry. apply andb_false_iff. right. apply N.leb_gt. lia.
Qed.

Lemma ascii_lower_below_128 (c : N) :
  (c <? 128)%N = true -> (Unicode.ascii_lower c <? 128)%N = true.
Proof.
  unfold Unicode.ascii_lower. intros Hc. apply N.ltb_lt in Hc. apply N.ltb_lt.
  destruct ((65 <=? c)%N && (c <=? 90)%N) eqn:E; [|exact Hc].
  apply andb_true_iff in E as [_ E2]. apply N.leb_le in E2. lia.
Qed.

Lemma ascii_lowercase_is_ascii (s : Unicode.str) :
  Unicode.is_ascii s = true -> Unicode.is_ascii (Unicode.ascii_lowercase s) = true.
Proof.
  unfold Unicode.is_ascii, Unicode.ascii_lowercase.
  rewrite !forallb_forall. intros Hs c Hin.
  apply in_map_iff in Hin as (c0 & <- & Hin).
  apply ascii_lower_below_128. now apply Hs.
Qed.

(** C5 (amended): for every input string, the empty one included, the
    output of [normalize_extension] starts with a dot, and with exactly one
    dot exactly when the input does not itself start with two dots; for an
    input of ASCII characters the output is ASCII and contains no uppercase
    letter. [normalize("PNG") = normalize(".png") = ".png"], and the empty
    string yields ["."]. Of [str.lower()] the first part uses that it keeps
    a leading dot and makes no dot of another character, the rest that it
    lowers ['A'..'Z'] on ASCII text. *)
Theorem normalize_extension_shape :
  (forall lower : Unicode.str -> Unicode.str,
      Unicode.lower_keeps_leading_dot lower ->
      forall ext : Unicode.str,
        Unicode.startswith_dot (Unicode.normalize_extension lower ext) = true /\
        Unicode.starts_with_exactly_one_dot (Unicode.normalize_extension lower ext)
        = negb (Unicode.starts_with_two_dots ext)) /\
  (forall lower : Unicode.str -> Unicode.str,
      Unicode.lower_on_ascii lower ->
      forall ext : Unicode.str,
        Unicode.is_ascii ext = true ->
        forallb Unicode.ascii_not_upper (Unicode.normalize_extension lower ext) = true) /\
  (forall lower : Unicode.str -> Unicode.str,
      Unicode.lower_on_ascii lower ->
      Unicode.normalize_extension lower (Unicode.codes "PNG") = Unicode.codes ".png" /\
      Unicode.normalize_extension lower (Unicode.codes ".png") = Unicode.codes ".png" /\
      Unicode.normalize_extension lower [] = Unicode.codes ".").
Proof.
  split; [|split].
  - intros lower Hl ext. now apply normalize_extension_dots.
  - intros lower Hl ext Hext.
    rewrite normalize_extension_ascii_lowercase by assumption.
    pose proof (is_ascii_normalize_argument ext Hext) as Harg.
    unfold Unicode.ascii_lowercase, Unicode.is_ascii in *.
    rewrite forallb_forall in *. intros c Hin.
    apply in_map_iff in Hin as (c0 & <- & Hin).
    apply ascii_lower_not_upper. now apply Harg.
  - intros lower Hl.
    repeat split;
      (rewrite normalize_extension_ascii_lowercase by (assumption || reflexivity);
       reflexivity).
Qed.

(** The statement at [JpG], with the lowercasing of ASCII. *)
Lemma normalize_extension_shape_JpG :
  Unicode.startswith_dot
    (Unicode.normalize_extension Unicode.ascii_lowercase (Unicode.codes "JpG")) = true /\
  forallb Unicode.ascii_not_upper
    (Unicode.normalize_extension Unicode.ascii_lowercase (Unicode.codes "JpG")) = true.
Proof.
  split.
  - exact (proj1 (proj1 normalize_extension_shape Unicode.ascii_lowercase
                        ascii_lowercase_keeps_leading_dot (Unicode.codes "JpG"))).
  - apply (proj1 (proj2 normalize_extension_shape) Unicode.ascii_lowercase
                 ascii_lowercase_on_ascii).
    reflexivity.
Defined.

(** X1: on ASCII text [normalize_extension] is idempotent: normalizing an
    extension that was normalized before changes nothing. *)
Theorem normalize_extension_idempotent
        (lower : Unicode.str -> Unicode.str) (ext : Unicode.str) :
  Unicode.lower_on_ascii lower ->
  Unicode.is_ascii ext = true ->
  Unicode.normalize_extension lower (Unicode.normalize_extension lower ext)
  = Unicode.normalize_extension lower ext.
Proof.
  intros Hl Hext.
  assert (Hform : exists arg,
             Unicode.is_ascii arg = true /\
             Unicode.startswith_dot arg = true /\
             Unicode.normalize_extension lower ext = Unicode.ascii_lowercase arg).
  { eexists. split; [|split].
    - apply (is_ascii_normalize_argument ext Hext).
    - destruct (Unicode.startswith_dot ext) eqn:E; [exact E | reflexivity].
    - now apply normalize_extension_ascii_lowercase. }
  destruct Hform as (arg & Harg & Hdot & ->).
  unfold Unicode.normalize_extension.
  rewrite (startswith_dot_lower_any Unicode.ascii_lowercase arg
             ascii_lowercase_keeps_leading_dot), Hdot.
  cbn [negb]. rewrite Hl by now apply ascii_lowercase_is_ascii.
  unfold Unicode.ascii_lowercase. rewrite map_map.
  apply map_ext. intros c. apply ascii_lower_idempotent.
Qed.

(** [.JpG] normalized twice. *)
Lemma normalize_extension_idempotent_JpG :
  Unicode.normalize_extension Unicode.ascii_lowercase
    (Unicode.normalize_extension Unicode.ascii_lowercase (Unicode.codes ".JpG"))
  = Unicode.normalize_extension Unicode.ascii_lowercase (Unicode.codes ".JpG").
Proof.
  apply normalize_extension_idempotent.
  - apply ascii_lowercase_on_ascii.
  - reflexivity.
Defined.

(** X2: the leading dot is optional: an extension that does not start
    with a dot normalizes like the same extension with the dot in front,
    whatever [str.lower()] does. And case does not matter: two extensions
    that [str.lower()] maps to the same string normalize to the same
    string. *)
Theorem normalize_extension_dot_and_case :
  (forall (lower : Unicode.str -> Unicode.str) (ext : Unicode.str),
      Unicode.startswith_dot ext = false ->
      Unicode.normalize_extension lower (Unicode.dot :: ext)
      = Unicode.normalize_extension lower ext) /\
  (forall lower : Unicode.str -> Unicode.str,
      Unicode.lower_keeps_leading_dot lower ->
      forall ext1 ext2 : Unicode.str,
        lower ext1 = lower ext2 ->
        Unicode.normalize_extension lower ext1 = Unicode.normalize_extension lower ext2).
Proof.
  split.
  - intros lower ext Hext. unfold Unicode.normalize_extension.
    rewrite Hext. cbn. reflexivity.
  - intros lower Hl ext1 ext2 Heq.
    rewrite !normalize_extension_by_lower by assumption.
    rewrite <- (startswith_dot_lower_any lower ext1 Hl).
    rewrite <- (startswith_dot_lower_any lower ext2 Hl).
    now rewrite Heq.
Qed.

(** [JpG], [.JpG] and [.jpg] normalize alike. *)
Lemma normalize_extension_JpG :
  Unicode.normalize_extension Unicode.ascii_lowercase (Unicode.dot :: Unicode.codes "JpG")
  = Unicode.normalize_extension Unicode.ascii_lowercase (Unicode.codes "JpG") /\
  Unicode.normalize_extension Unicode.ascii_lowercase (Unicode.codes ".JpG")
  = Unicode.normalize_extension Unicode.ascii_lowercase (Unicode.codes ".jpg").
Proof.
  split.
  - apply (proj1 normalize_extension_dot_and_case). reflexivity.
  - apply (proj2 normalize_extension_dot_and_case).
    + apply ascii_lowercase_keeps_leading_dot.
    + reflexivity.
Defined.

(** ** extract_numeric_order *)

Section DecimalFacts.

Variable decimal : N -> option Z.

Lemma int_from_value (s : Unicode.str) (acc : Z) :
  Unicode.int_from decimal s acc
  = (acc * 10 ^ Z.of_nat (List.length s) + Unicode.decimal_value decimal s)%Z.
Proof.
  revert acc. induction s as [|c s IH]; intros acc.
  - cbn. lia.
  - cbn [Unicode.int_from Unicode.decimal_value List.length]. rewrite IH.
    rewrite Nat2Z.inj_succ, Z.pow_succ_r by lia. ring.
Qed.

Lemma int_value (s : Unicode.str) :
  Unicode.int decimal s
  = if (List.length s <=? Unicode.int_max_str_digits)%nat
    then Some (Unicode.decimal_value decimal s) else None.
Proof.
  unfold Unicode.int. rewrite int_from_value.
  destruct (List.length s <=? Unicode.int_max_str_digits)%nat; [|reflexivity].
  f_equal; lia.
Qed.

(** What [re.findall] puts first: nothing when the string has no decimal
    digit, else the leftmost maximal run of decimal digits. *)
Lemma findall_decimal_head (s : Unicode.str) :
  (forallb (Unicode.not_decimal decimal) s = true /\
   Unicode.findall_decimal decimal s = []) \/
  (exists pre run post runs,
      s = (pre ++ run ++ post)%list /\
      forallb (Unicode.not_decimal decimal) pre = true /\
      run <> [] /\
      forallb (Unicode.is_decimal decimal) run = true /\
      Unicode.no_leading_decimal decimal post = true /\
      Unicode.findall_decimal decimal s = run :: runs).
Proof.
  induction s as [|c s IH].
  - left. split; reflexivity.
  - cbn [Unicode.findall_decimal].
    destruct (Unicode.is_decimal decimal c) eqn:Hc.
    + right. destruct s as [|c' s'].
      * exists [], [c], [], []. cbn. rewrite Hc.
        repeat split; congruence.
      * destruct (Unicode.is_decimal decimal c') eqn:Hc'.
        -- destruct IH as [[Hno _]|(pre & run & post & runs & Hs & Hpre & Hne & Hrun & Hpost & Hf)].
           { cbn in Hno. unfold Unicode.not_decimal in Hno. rewrite Hc' in Hno.
             discriminate. }
           destruct pre as [|x pre].
           2:{ cbn in Hs. injection Hs as <- _. cbn in Hpre.
               unfold Unicode.not_decimal in Hpre. rewrite Hc' in Hpre. discriminate. }
           rewrite Hf. exists [], (c :: run), post, runs.
           cbn [List.app] in Hs |- *. rewrite Hs. cbn [forallb]. rewrite Hc, Hrun.
           repeat split; congruence.
        -- exists [], [c], (c' :: s'), (Unicode.findall_decimal decimal (c' :: s')).
           cbn [List.app forallb Unicode.no_leading_decimal].
           unfold Unicode.not_decimal. rewrite Hc, Hc'. repeat split; congruence.
    + destruct IH as [[Hno Hf]|(pre & run & post & runs & Hs & Hpre & Hne & Hrun & Hpost & Hf)].
      * left. cbn [forallb]. unfold Unicode.not_decimal at 1. rewrite Hc, Hno.
        now split.
      * right. exists (c :: pre), run, post, runs.
        cbn [List.app forallb]. unfold Unicode.not_decimal at 1. rewrite Hc, Hpre.
        repeat split; try assumption. now rewrite Hs.
Qed.

Lemma findall_decimal_run (run post : Unicode.str) :
  run <> [] ->
  forallb (Unicode.is_decimal decimal) run = true ->
  Unicode.no_leading_decimal decimal post = true ->
  Unicode.findall_decimal decimal (run ++ post)%list
  = run :: Unicode.findall_decimal decimal post.
Proof.
  induction run as [|c run IH]; intros Hne Hrun Hpost; [congruence|].
  cbn [forallb] in Hrun. apply andb_true_iff in Hrun as [Hc Hrun].
  change ((c :: run) ++ post)%list with (c :: (run ++ post)%list).
  cbn [Unicode.findall_decimal]. rewrite Hc.
  destruct run as [|c2 run2].
  - cbn [List.app]. destruct post as [|c' post']; [reflexivity|].
    cbn in Hpost. unfold Unicode.not_decimal in Hpost. apply negb_true_iff in Hpost.
    now rewrite Hpost.
  - change ((c2 :: run2) ++ post)%list with (c2 :: (run2 ++ post)%list) in *.
    pose proof Hrun as Hrun'. cbn [forallb] in Hrun'.
    apply andb_true_iff in Hrun' as [Hc2 _]. rewrite Hc2.
    rewrite IH; [reflexivity | discriminate | assumption | assumption].
Qed.

Lemma findall_decimal_skip (pre rest : Unicode.str) :
  forallb (Unicode.not_decimal decimal) pre = true ->
  Unicode.findall_decimal decimal (pre ++ rest)%list
  = Unicode.findall_decimal decimal rest.
Proof.
  induction pre as [|c pre IH]; intros Hpre; [reflexivity|].
  cbn [forallb] in Hpre. apply andb_true_iff in Hpre as [Hc Hpre].
  unfold Unicode.not_decimal in Hc. apply negb_true_iff in Hc.
  change ((c :: pre) ++ rest)%list with (c :: (pre ++ rest)%list).
  cbn [Unicode.findall_decimal]. rewrite Hc. now apply IH.
Qed.

End DecimalFacts.

(** Two tables that agree on the characters of a string give it the
    same key. *)
Lemma findall_decimal_ext (d1 d2 : N -> option Z) (s : Unicode.str) :
  (forall c, In c s -> d1 c = d2 c) ->
  Unicode.findall_decimal d1 s = Unicode.findall_decimal d2 s.
Proof.
  induction s as [|c s IH]; intros Hagree; [reflexivity|].
  cbn [Unicode.findall_decimal]. unfold Unicode.is_decimal.
  rewrite (Hagree c) by now left.
  rewrite IH by (intros c0 Hin; apply Hagree; now right).
  destruct (d2 c); [|reflexivity].
  destruct s as [|c' s']; [reflexivity|].
  rewrite (Hagree c') by (right; now left). reflexivity.
Qed.

Lemma int_from_ext (d1 d2 : N -> option Z) (s : Unicode.str) (acc : Z) :
  (forall c, In c s -> d1 c = d2 c) ->
  Unicode.int_from d1 s acc = Unicode.int_from d2 s acc.
Proof.
  revert acc. induction s as [|c s IH]; intros acc Hagree; [reflexivity|].
  cbn [Unicode.int_from]. unfold Unicode.digit_value.
  rewrite (Hagree c) by now left.
  apply IH. intros c0 Hin. apply Hagree. now right.
Qed.

Lemma extract_numeric_order_ext (d1 d2 : N -> option Z) (s : Unicode.str) :
  (forall c, In c s -> d1 c = d2 c) ->
  Unicode.extract_numeric_order d1 s = Unicode.extract_numeric_order d2 s.
Proof.
  intros Hagree. unfold Unicode.extract_numeric_order.
  rewrite (findall_decimal_ext d1 d2 s Hagree).
  destruct (findall_decimal_head d2 s)
    as [[_ Hf]|(pre & run & post & runs & Hs & _ & _ & _ & _ & Hf)];
    rewrite Hf; [reflexivity|].
  unfold Unicode.int.
  rewrite (int_from_ext d1 d2 run); [reflexivity|].
  intros c Hin. apply Hagree. rewrite Hs.
  apply in_or_app. right. apply in_or_app. now left.
Qed.

Lemma extract_numeric_order_on_ascii (decimal : N -> option Z) (s : Unicode.str) :
  Unicode.decimal_on_ascii decimal ->
  Unicode.is_ascii s = true ->
  Unicode.extract_numeric_order decimal s
  = Unicode.extract_numeric_order Unicode.ascii_decimal s.
Proof.
  intros Hd Hs. apply extract_numeric_order_ext.
  intros c Hin. apply Hd. unfold Unicode.is_ascii in Hs.
  rewrite forallb_forall in Hs. apply N.ltb_lt. now apply Hs.
Qed.




(** X3: only the first run of digits counts. Whatever digit-free text
    precedes it and whatever follows it, the key of a name is the decimal
    value of its first maximal run of decimal digits, when that run has at
    most 4300 digits. *)
Theorem extract_numeric_order_ignores_rest
        (decimal : N -> option Z) (pre run post : Unicode.str) :
  forallb (Unicode.not_decimal decimal) pre = true ->
  run <> [] ->
  forallb (Unicode.is_decimal decimal) run = true ->
  List.length run <= Unicode.int_max_str_digits ->
  Unicode.no_leading_decimal decimal post = true ->
  Unicode.extract_numeric_order decimal (pre ++ run ++ post)%list
  = Some (Unicode.decimal_value decimal run).
Proof.
  intros Hpre Hne Hrun Hlen Hpost. unfold Unicode.extract_numeric_order.
  rewrite findall_decimal_skip by assumption.
  rewrite findall_decimal_run by assumption.
  rewrite int_value.
  now rewrite (proj2 (Nat.leb_le _ _) Hlen).
Qed.

(** [IMG_0042-v2.jpg] is keyed 42: the later [2] is not read. *)
Lemma extract_numeric_order_IMG_0042 :
  Unicode.extract_numeric_order Unicode.ascii_decimal
    (Unicode.codes "IMG_" ++ Unicode.codes "0042" ++ Unicode.codes "-v2.jpg")%list
  = Some 42%Z.
Proof.
  rewrite (extract_numeric_order_ignores_rest Unicode.ascii_decimal
             (Unicode.codes "IMG_") (Unicode.codes "0042") (Unicode.codes "-v2.jpg")).
  - reflexivity.
  - reflexivity.
  - discriminate.
  - reflexivity.
  - cbn. unfold Unicode.int_max_str_digits. lia.
  - reflexivity.
Defined.

(** ** ASCII text: the byte-level functions are the ones above *)

Lemma code_lower_char (c : ascii) :
  N_of_ascii (PyStr.lower_char c) = Unicode.ascii_lower (N_of_ascii c).
Proof. destruct c as [[] [] [] [] [] [] [] []]; reflexivity. Qed.

Lemma code_is_dot (c : ascii) :
  (N_of_ascii c =? Unicode.dot)%N = Ascii.eqb c ".".
Proof. destruct c as [[] [] [] [] [] [] [] []]; reflexivity. Qed.

Lemma code_is_digit (c : ascii) :
  Unicode.is_decimal Unicode.ascii_decimal (N_of_ascii c) = PyStr.is_digit c.
Proof. destruct c as [[] [] [] [] [] [] [] []]; reflexivity. Qed.

Lemma code_digit_value (c : ascii) :
  PyStr.is_digit c = true ->
  Unicode.digit_value Unicode.ascii_decimal (N_of_ascii c) = PyStr.digit_value c.
Proof.
  destruct c as [[] [] [] [] [] [] [] []]; intros Hc;
    solve [reflexivity | discriminate Hc].
Qed.

Lemma codes_lower (s : string) :
  Unicode.codes (PyStr.lower s) = Unicode.ascii_lowercase (Unicode.codes s).
Proof.
  induction s as [|c s IH]; [reflexivity|].
  unfold Unicode.codes, Unicode.ascii_lowercase in *. cbn.
  now rewrite code_lower_char, IH.
Qed.

Lemma codes_startswith_dot (s : string) :
  Unicode.startswith_dot (Unicode.codes s) = PyStr.startswith s ".".
Proof.
  destruct s as [|c s]; [reflexivity|].
  rewrite startswith_dot_cons. unfold Unicode.codes. cbn. apply code_is_dot.
Qed.

Lemma length_codes (s : string) :
  List.length (Unicode.codes s) = String.length s.
Proof.
  unfold Unicode.codes. rewrite length_map.
  induction s as [|c s IH]; cbn; [reflexivity | now rewrite IH].
Qed.

(** On ASCII text the byte-level [normalize_extension] is the code's. *)
Lemma normalize_extension_on_ascii_text
      (lower : Unicode.str -> Unicode.str) (ext : string) :
  Unicode.lower_on_ascii lower ->
  Unicode.is_ascii (Unicode.codes ext) = true ->
  Unicode.normalize_extension lower (Unicode.codes ext)
  = Unicode.codes (normalize_extension ext).
Proof.
  intros Hl Hext.
  rewrite normalize_extension_ascii_lowercase by assumption.
  unfold normalize_extension. rewrite codes_lower, codes_startswith_dot.
  destruct (PyStr.startswith ext "."); reflexivity.
Qed.

Lemma codes_findall_digits (s : string) :
  Unicode.findall_decimal Unicode.ascii_decimal (Unicode.codes s)
  = map Unicode.codes (PyStr.findall_digits s).
Proof.
  induction s as [|c s IH]; [reflexivity|].
  change (Unicode.codes (String c s)) with (N_of_ascii c :: Unicode.codes s).
  cbn [Unicode.findall_decimal PyStr.findall_digits].
  rewrite code_is_digit.
  destruct (PyStr.is_digit c); [|exact IH].
  destruct s as [|c' s']; [reflexivity|].
  change (Unicode.codes (String c' s')) with (N_of_ascii c' :: Unicode.codes s') in *.
  cbv iota. rewrite code_is_digit.
  destruct (PyStr.is_digit c').
  - rewrite IH. destruct (PyStr.findall_digits (String c' s')); reflexivity.
  - rewrite IH. reflexivity.
Qed.

Lemma codes_int_from (run : string) (acc : Z) :
  string_forall PyStr.is_digit run = true ->
  Unicode.int_from Unicode.ascii_decimal (Unicode.codes run) acc
  = PyStr.int_from run acc.
Proof.
  revert acc. induction run as [|c run IH]; intros acc Hrun; [reflexivity|].
  cbn [string_forall] in Hrun. apply andb_true_iff in Hrun as [Hc Hrun].
  change (Unicode.codes (String c run)) with (N_of_ascii c :: Unicode.codes run).
  cbn [Unicode.int_from PyStr.int_from].
  rewrite (code_digit_value c Hc). now apply IH.
Qed.

(** On ASCII text the byte-level [extract_numeric_order] is the code's
    key, wherever [int] accepts the first run. *)
Lemma extract_numeric_order_on_ascii_text (decimal : N -> option Z) (s : string) :
  Unicode.decimal_on_ascii decimal ->
  Unicode.is_ascii (Unicode.codes s) = true ->
  Unicode.extract_numeric_order decimal (Unicode.codes s)
  = match PyStr.findall_digits s with
    | first :: _ =>
        if (String.length first <=? Unicode.int_max_str_digits)%nat
        then Some (extract_numeric_order s) else None
    | [] => Some (extract_numeric_order s)
    end.
Proof.
  intros Hd Hs. rewrite extract_numeric_order_on_ascii by assumption.
  unfold Unicode.extract_numeric_order, extract_numeric_order.
  rewrite codes_findall_digits.
  destruct (findall_digits_head s)
    as [[_ Hf]|(pre & run & post & runs & _ & _ & _ & Hrun & _ & Hf)];
    rewrite Hf; [reflexivity|].
  cbn [map]. unfold Unicode.int, PyStr.int.
  rewrite length_codes, codes_int_from by assumption. reflexivity.
Qed.
